(** * Verification of the text tools and request handlers of ai-automation-engine

    Shallow embedding of the Python sources [src/tools/*.py] and [src/api.py].
    A Python [str] is a list of Unicode code points ([list N]); the string
    primitives used by the code ([strip], [split], slicing, [in],
    [startswith], [rfind], [lower], comparison) are written out below with
    CPython's semantics.  External services (ML models, translation,
    scraping, joke API, clock, file system) are parameters of Sections or
    explicit events in an effect trace. *)

From Stdlib Require Import List NArith ZArith Arith Lia String Ascii Bool.
From Stdlib Require Import Sorting.Sorted Permutation.
Import ListNotations.
Set Warnings "-register-all".

(* ================================================================= *)
(** ** Python strings *)

Module Py.

Definition pystr := list N.

(** String literals of the source (ASCII) as code-point lists. *)
Definition lit (s : string) : pystr := map N_of_ascii (list_ascii_of_string s).

(** [Py_UNICODE_ISSPACE]: the whitespace of [str.strip], [str.split]
    and of [\s] in [re] patterns. *)
Definition isspace (c : N) : bool :=
  ((9 <=? c) && (c <=? 13))%N || ((28 <=? c) && (c <=? 32))%N
  || (c =? 133)%N || (c =? 160)%N || (c =? 5760)%N
  || ((8192 <=? c) && (c <=? 8202))%N
  || (c =? 8232)%N || (c =? 8233)%N || (c =? 8239)%N || (c =? 8287)%N
  || (c =? 12288)%N.

Definition space : N := 32%N.

Fixpoint lstrip (s : pystr) : pystr :=
  match s with
  | [] => []
  | c :: r => if isspace c then lstrip r else s
  end.

Definition rstrip (s : pystr) : pystr := rev (lstrip (rev s)).

(** [s.strip()] *)
Definition strip (s : pystr) : pystr := rstrip (lstrip s).

(** [s.split()]: maximal runs of non-whitespace; [cur] is the reversed
    token being read. *)
Fixpoint split_aux (s : pystr) (cur : pystr) : list pystr :=
  match s with
  | [] => match cur with [] => [] | _ => [rev cur] end
  | c :: r =>
      if isspace c
      then match cur with
           | [] => split_aux r []
           | _ => rev cur :: split_aux r []
           end
      else split_aux r (c :: cur)
  end.

Definition split (s : pystr) : list pystr := split_aux s [].

(** [s[:n]] for [n >= 0] *)
Definition slice_to (s : pystr) (n : nat) : pystr := firstn n s.

Fixpoint prefixb (p s : pystr) : bool :=
  match p, s with
  | [], _ => true
  | a :: p', b :: s' => (a =? b)%N && prefixb p' s'
  | _ :: _, [] => false
  end.

(** [s.startswith(p)] *)
Definition startswith (s p : pystr) : bool := prefixb p s.

(** [needle in hay] *)
Fixpoint contains (needle hay : pystr) : bool :=
  prefixb needle hay ||
  match hay with
  | [] => false
  | _ :: r => contains needle r
  end.

(** [hay.find(needle)]: [None] is [-1]. *)
Fixpoint find_aux (needle hay : pystr) (i : nat) : option nat :=
  if prefixb needle hay then Some i
  else match hay with
       | [] => None
       | _ :: r => find_aux needle r (S i)
       end.

Definition find (needle hay : pystr) : option nat := find_aux needle hay 0.

(** [s.rfind(c)] for a one-character needle: [None] is [-1]. *)
Fixpoint rfind_aux (s : pystr) (c : N) (i : nat) (acc : option nat) : option nat :=
  match s with
  | [] => acc
  | d :: r => rfind_aux r c (S i) (if (d =? c)%N then Some i else acc)
  end.

Definition rfind (s : pystr) (c : N) : option nat := rfind_aux s c 0 None.

(** [str.lower()] on one code point.  ASCII and Latin-1 capitals are
    mapped; the two non-ASCII code points whose lower case contains an
    ASCII letter (U+0130 and KELVIN SIGN U+212A) are mapped as in
    Unicode's SpecialCasing; every other code point is kept (their lower
    case is non-ASCII, so keyword matching on ASCII is unaffected). *)
Definition lower_char (c : N) : list N :=
  if ((65 <=? c) && (c <=? 90))%N then [(c + 32)%N]
  else if ((192 <=? c) && (c <=? 222) && negb (c =? 215))%N then [(c + 32)%N]
  else if (c =? 304)%N then [105%N; 775%N]
  else if (c =? 8490)%N then [107%N]
  else [c].

Definition lower (s : pystr) : pystr := flat_map lower_char s.

(** [a < b] on [str]: lexicographic on code points. *)
Fixpoint ltb (a b : pystr) : bool :=
  match a, b with
  | [], [] => false
  | [], _ :: _ => true
  | _ :: _, [] => false
  | x :: a', y :: b' => (x <? y)%N || ((x =? y)%N && ltb a' b')
  end.

Fixpoint eqb (a b : pystr) : bool :=
  match a, b with
  | [], [] => true
  | x :: a', y :: b' => (x =? y)%N && eqb a' b'
  | _, _ => false
  end.

(** [sep.join(xs)] *)
Fixpoint join (sep : pystr) (xs : list pystr) : pystr :=
  match xs with
  | [] => []
  | [x] => x
  | x :: r => x ++ sep ++ join sep r
  end.

End Py.

Import Py.

(* ================================================================= *)
(** ** src/tools/text_stats.py *)

Module TextStats.

(** [get_text_stats(text)] returns [(num_chars, num_words)]. *)
Definition get_text_stats (text : pystr) : nat * nat :=
  let text := strip text in
  match text with
  | [] => (0, 0)
  | _ => (List.length text, List.length (split text))
  end.

End TextStats.

(* ================================================================= *)
(** ** src/tools/job_analyzer.py: [estimate_job_fit] *)

Module JobFit.

Definition estimate_job_fit (skills : list pystr) : Z :=
  match skills with
  | [] => 20
  | _ =>
      let base := 40 in
      let bonus := Z.of_nat (List.length skills) * 7 in
      let score := base + bonus in
      Z.min score 95
  end%Z.

End JobFit.

(* ================================================================= *)
(** ** External collaborators *)

(** Everything the code reaches outside of this repository, plus
    [tools.cleaner.clean_text], which no claim below depends on.  A
    call that raises is [None] (or [inl msg], where the message [str(e)]
    is used by the caller). *)
Record World := {
  (** [tools.cleaner.clean_text] *)
  clean_text : pystr -> pystr;
  (** [str.isalpha] on one code point (Unicode database) *)
  isalpha : N -> bool;
  (** [ai_tools.summarizer_en]: [None] when the pipeline failed to load;
      [Some f] where [f text = None] when the call or
      [result[0]["summary_text"]] raises *)
  summarizer_en : option (pystr -> option pystr);
  (** [ai_tools.sentiment_en] *)
  ai_sentiment_en : option (pystr -> option (pystr * Z));
  (** [sentiment.sentiment_en(text)[0]]: label and score (the score is
      carried as an opaque number) *)
  sentiment_en : pystr -> option (pystr * Z);
  (** [GoogleTranslator(source='auto', target='en').detect(text)] *)
  detect : pystr -> option pystr;
  (** [GoogleTranslator(source='auto', target=tl).translate(text)] *)
  translate : pystr -> pystr -> option pystr;
  (** [joke_api.get_joke()] *)
  get_joke : option (pystr * pystr);
  (** [scraper_playwright.scrape_plain_text(url)] *)
  scrape_plain_text : pystr -> pystr + pystr;
  (** [scraper.scrape_url(url)]: [(domain, extracted_text)] *)
  basic_scrape_url : pystr -> pystr + (pystr * pystr);
  (** [BeautifulSoup(requests.get(url).text).get_text()] *)
  requests_page_text : pystr -> option pystr;
  (** [urlparse(url).netloc]: [inl msg] when [urlparse] raises
      [ValueError] (e.g. ["Invalid IPv6 URL"] for ["http://[abc"]) *)
  netloc : pystr -> pystr + pystr;
  (** [datetime.now().strftime("%Y%m%d_%H%M%S")] of [report_generator],
      read once [n] effects have happened *)
  now_report : nat -> pystr;
  (** [datetime.now().strftime("%Y-%m-%d %H:%M:%S")] of
      [logger.log_request], read once [n] effects have happened *)
  now_log : nat -> pystr;
  (** [datetime.now().isoformat()] of [json_logger.log_json], read once
      [n] effects have happened *)
  now_iso : nat -> pystr;
  (** The [OSError] message of [open(path, "w")] or [open(path, "a")]
      (e.g. [FileNotFoundError] when [reports/] or [logs/] is missing);
      [None] when the file opens *)
  open_error : pystr -> option pystr;
  (** [uuid.uuid4().hex] *)
  uuid_hex : pystr
}.

(* ================================================================= *)
(** ** src/tools/ai_tools.py *)

Module AITools.

Definition is_ascii_letter (c : N) : bool :=
  ((65 <=? c) && (c <=? 90))%N || ((97 <=? c) && (c <=? 122))%N.

(** [is_mostly_english(text, threshold=0.6)]: [ratio >= 0.6] with
    [ratio = e / l] is decided exactly as [5 e >= 3 l]. *)
Definition is_mostly_english (E : World) (text : pystr) : bool :=
  let letters := filter E.(isalpha) text in
  match letters with
  | [] => false
  | _ =>
      let english_letters := filter is_ascii_letter letters in
      (3 * List.length letters <=? 5 * List.length english_letters)%nat
  end.

(** The terminators of [(?<=[\.!\?؟])]: '.', '!', '?', U+061F. *)
Definition is_term (c : N) : bool :=
  (c =? 46)%N || (c =? 33)%N || (c =? 63)%N || (c =? 1567)%N.

(** [re.split(r'(?<=[\.!\?؟])\s+', text)]: [prev] is whether the
    character before the current position is a terminator, [skipping]
    whether a separator match is being consumed, [cur] the reversed
    current piece. *)
Fixpoint resplit_aux (s : pystr) (prev skipping : bool) (cur : pystr)
  : list pystr :=
  match s with
  | [] => [rev cur]
  | c :: r =>
      if skipping then
        if isspace c then resplit_aux r false true cur
        else resplit_aux r (is_term c) false [c]
      else if prev && isspace c then rev cur :: resplit_aux r false true []
      else resplit_aux r (is_term c) false (c :: cur)
  end.

Definition sentence_split (s : pystr) : list pystr := resplit_aux s false false [].

(** [simple_summary(text, max_sentences, max_chars)] *)
Definition simple_summary_with (text : pystr) (max_sentences max_chars : nat)
  : pystr :=
  let text := strip text in
  match text with
  | [] => []
  | _ =>
      if (List.length text <=? max_chars)%nat then text
      else
        let sentences := sentence_split text in
        let summary_sentences := firstn max_sentences sentences in
        let summary := strip (join [space] summary_sentences) in
        if (max_chars <? List.length summary)%nat then
          let summary := slice_to summary max_chars in
          let summary :=
            match rfind summary space with
            | Some last_space => slice_to summary last_space
            | None => summary
            end in
          summary ++ lit "..."
        else summary
  end.

Definition simple_summary (text : pystr) : pystr := simple_summary_with text 3 400.

Definition MAX_INPUT_CHARS : nat := 4000.

(** [summarize_text(text)] *)
Definition summarize_text (E : World) (text : pystr) : pystr :=
  let text := strip text in
  if (List.length text <? 20)%nat then text
  else
    let text :=
      if (MAX_INPUT_CHARS <? List.length text)%nat
      then slice_to text MAX_INPUT_CHARS else text in
    match E.(summarizer_en) with
    | Some summarizer =>
        if is_mostly_english E text then
          match summarizer text with
          | Some summary_text => summary_text
          | None => simple_summary text
          end
        else simple_summary text
    | None => simple_summary text
    end.

(** The dict returned by [translate_text]; [source_lang = None] is
    Python's [None]. *)
Record translation := {
  source_lang : option pystr;
  target_lang : pystr;
  original : pystr;
  translated : pystr
}.

(** [translate_text(text, target_lang)] *)
Definition translate_text (E : World) (text target_lang : pystr) : translation :=
  let text := strip text in
  match text with
  | [] => {| source_lang := None; target_lang := target_lang;
             original := []; translated := [] |}
  | _ =>
      let source_lang :=
        match E.(detect) text with
        | Some l => l
        | None => lit "auto"
        end in
      let translated :=
        match E.(translate) target_lang text with
        | Some t => t
        | None => text
        end in
      {| source_lang := Some source_lang; target_lang := target_lang;
         original := text; translated := translated |}
  end.

End AITools.

(* ================================================================= *)
(** ** src/tools/job_analyzer.py: keyword scanners *)

Module Extract.

(** [sorted(xs)] on [str]: insertion by [<]. *)
Fixpoint insert_str (x : pystr) (l : list pystr) : list pystr :=
  match l with
  | [] => [x]
  | y :: r => if ltb y x then y :: insert_str x r else x :: l
  end.

Definition py_sorted (l : list pystr) : list pystr := fold_right insert_str [] l.

(** [set(xs)]: the distinct elements (their order is immaterial, the
    code sorts them right away). *)
Definition py_set (l : list pystr) : list pystr := nodup (list_eq_dec N.eq_dec) l.

Definition SKILL_KEYWORDS : list pystr := map lit
  ["python"; "java"; "javascript"; "react"; "vue";
   "docker"; "kubernetes"; "sql"; "nosql"; "linux";
   "machine learning"; "deep learning";
   "data analysis"; "api"; "cloud"; "aws"; "azure";
   "fastapi"; "flask"; "django"]%string.

Definition LANGS : list pystr := map lit
  ["english"; "german"; "french"; "arabic"; "persian"; "norwegian"]%string.

Definition TECH : list pystr := map lit
  ["aws"; "gcp"; "azure";
   "docker"; "kubernetes";
   "tensorflow"; "pytorch";
   "fastapi"; "flask"; "django";
   "postgres"; "mysql"; "mongodb";
   "redis"]%string.

(** The loop [for kw in KEYWORDS: if kw in t: found.append(kw)]. *)
Definition scan (keywords : list pystr) (t : pystr) : list pystr :=
  filter (fun kw => contains kw t) keywords.

Definition find_skills (text : pystr) : list pystr :=
  let lower := lower text in
  py_sorted (py_set (scan SKILL_KEYWORDS lower)).

Definition find_languages (text : pystr) : list pystr :=
  let t := lower text in
  scan LANGS t.

Definition find_technologies (text : pystr) : list pystr :=
  let t := lower text in
  py_sorted (py_set (scan TECH t)).

End Extract.

(* ================================================================= *)
(** ** src/api.py: [extract_keywords_simple] *)

Module Keywords.

Definition stopwords : list pystr := map lit
  ["the"; "and"; "for"; "with"; "that"; "this"; "from"; "have"; "has";
   "are"; "was"; "were"; "will"; "would"; "can"; "could"; "should";
   "about"; "into"; "onto"; "over"; "under"; "than"; "then"; "them";
   "they"; "you"; "your"; "yours"; "our"; "ours"; "his"; "her"; "its";
   "not"; "but"; "all"; "any"; "some"; "more"; "most"; "many";
   "such"; "very"; "also"; "just"; "like"; "one"; "two"; "three"]%string.

(** The greedy [[a-zA-Z]+] run at the current position and the rest. *)
Fixpoint take_letters (s : pystr) : pystr * pystr :=
  match s with
  | [] => ([], [])
  | c :: r =>
      if AITools.is_ascii_letter c
      then let (w, rest) := take_letters r in (c :: w, rest)
      else ([], s)
  end.

(** [re.findall(r"[a-zA-Z]{3,}", s)]: at each position try the greedy
    match; on success emit it and resume after it, otherwise advance by
    one character. *)
Fixpoint findall_fuel (fuel : nat) (s : pystr) : list pystr :=
  match fuel with
  | 0 => []
  | S f =>
      match s with
      | [] => []
      | _ :: r =>
          let (w, rest) := take_letters s in
          if (3 <=? List.length w)%nat then w :: findall_fuel f rest
          else findall_fuel f r
      end
  end.

Definition findall_alpha3 (s : pystr) : list pystr := findall_fuel (List.length s) s.

(** [collections.Counter(xs)]: counts in insertion (first-seen) order. *)
Fixpoint counter_add (w : pystr) (c : list (pystr * nat)) : list (pystr * nat) :=
  match c with
  | [] => [(w, 1)]
  | (k, n) :: r => if eqb k w then (k, S n) :: r else (k, n) :: counter_add w r
  end.

Definition Counter (l : list pystr) : list (pystr * nat) :=
  fold_left (fun c w => counter_add w c) l [].

(** Stable descending insertion by count: [x] precedes every element of
    [l] in the original order, so it goes before the equal counts. *)
Fixpoint insert_desc (x : pystr * nat) (l : list (pystr * nat)) : list (pystr * nat) :=
  match l with
  | [] => [x]
  | y :: r => if (snd x <? snd y)%nat then y :: insert_desc x r else x :: l
  end.

(** [sorted(items, key=count, reverse=True)], stable. *)
Definition sort_desc (l : list (pystr * nat)) : list (pystr * nat) :=
  fold_right insert_desc [] l.

(** [Counter.most_common(n)] is [heapq.nlargest(n, items, key=count)],
    i.e. [sorted(items, key=count, reverse=True)[:n]] for [n >= 0] and
    [[]] for [n < 0]. *)
Definition most_common (c : list (pystr * nat)) (n : Z) : list (pystr * nat) :=
  firstn (Z.to_nat n) (sort_desc c).

Definition extract_keywords_simple (text : pystr) (top_n : Z) : list pystr :=
  let tokens := findall_alpha3 (lower text) in
  let filtered := filter (fun t => negb (existsb (eqb t) stopwords)) tokens in
  let counts := Counter filtered in
  map fst (most_common counts top_n).

End Keywords.

(** The ranking described by the specification of [extract_keywords],
    written from its words, to be compared with [Keywords]. *)
Module KeywordsSpec.

Definition emit_run (cur : pystr) : list pystr :=
  if (3 <=? List.length cur)%nat then [rev cur] else [].

(** Maximal runs of ASCII letters with at least 3 letters ([cur] is the
    reversed run being read). *)
Fixpoint runs_aux (s cur : pystr) : list pystr :=
  match s with
  | [] => emit_run cur
  | c :: r =>
      if AITools.is_ascii_letter c then runs_aux r (c :: cur)
      else emit_run cur ++ runs_aux r []
  end.

Definition alpha_runs (s : pystr) : list pystr := runs_aux s [].

(** Lower-case, cut into alphabetic runs, drop the stopwords. *)
Definition tokens (text : pystr) : list pystr :=
  filter (fun t => negb (existsb (eqb t) Keywords.stopwords)) (alpha_runs (lower text)).

Fixpoint count_of (w : pystr) (l : list pystr) : nat :=
  match l with
  | [] => 0
  | x :: r => (if eqb x w then 1 else 0) + count_of w r
  end.

(** Position of the first occurrence ([length l] when absent). *)
Fixpoint first_index (w : pystr) (l : list pystr) : nat :=
  match l with
  | [] => 0
  | x :: r => if eqb x w then 0 else S (first_index w r)
  end.

(** [a] ranks before [b]: more frequent, or as frequent and seen first. *)
Definition ranks_before (L : list pystr) (a b : pystr) : Prop :=
  count_of a L > count_of b L \/
  (count_of a L = count_of b L /\ first_index a L < first_index b L).

End KeywordsSpec.

(* ================================================================= *)
(** ** Effects of the request handlers *)

Module Effects.

(** Exceptions seen by FastAPI: [HTTPException] becomes its own status,
    any other uncaught exception a 500. *)
Inductive exn :=
| HTTPException (status_code : Z) (detail : pystr)
| ValueError (msg : pystr)
| KeyError (key : pystr)
| ExternalError (msg : pystr).

(** The record mirrored by [save_txt], [save_json], [save_csv]. *)
Record report := {
  rep_cleaned : pystr; rep_chars : nat; rep_words : nat;
  rep_setup : pystr; rep_punchline : pystr
}.

(** Observable effects, in the order they happen. *)
Inductive event :=
| AppendLog (path time raw cleaned : pystr)
| WriteReport (path : pystr) (r : report)
| MakeDirs (path : pystr)
| WriteCsv (path : pystr) (header : list pystr) (rows : list (nat * pystr * pystr))
| Scrape (url : pystr).

(** JSON-like values of dicts and responses. *)
Inductive value :=
| VStr (s : pystr)
| VInt (z : Z)
| VNone
| VList (l : list value)
| VDict (kv : list (pystr * value)).

Definition M (A : Type) : Type := list event -> (exn + A) * list event.

Definition ret {A} (a : A) : M A := fun tr => (inr a, tr).
Definition raise {A} (e : exn) : M A := fun tr => (inl e, tr).
Definition bind {A B} (m : M A) (k : A -> M B) : M B :=
  fun tr => match m tr with
            | (inl e, tr') => (inl e, tr')
            | (inr a, tr') => k a tr'
            end.
Definition emit (ev : event) : M unit := fun tr => (inr tt, tr ++ [ev]).

Notation "x <- m ;; k" := (bind m (fun x => k))
  (at level 61, m at next level, right associativity).
Notation "m ;;; k" := (bind m (fun _ => k))
  (at level 61, right associativity).

Fixpoint lookup (k : pystr) (kv : list (pystr * value)) : option value :=
  match kv with
  | [] => None
  | (k', v) :: r => if eqb k' k then Some v else lookup k r
  end.

(** [d[k]] *)
Definition getitem (d : value) (k : pystr) : M value :=
  match d with
  | VDict kv => match lookup k kv with
                | Some v => ret v
                | None => raise (KeyError k)
                end
  | _ => raise (ExternalError (lit "TypeError"))
  end.

End Effects.

Import Effects.

(* ================================================================= *)
(** ** src/tools/sentiment.py and ai_tools.analyze_sentiment *)

Module Sentiment.

(** [guess_language(text)] *)
Definition guess_language (text : pystr) : pystr :=
  if existsb (fun ch => (1536 <=? ch)%N && (ch <=? 1791)%N) text then lit "fa"
  else if forallb (fun ch => (ch <? 128)%N) text then lit "en"
  else lit "unknown".

(** [sentiment.analyze_sentiment(text)], the one [api.py] imports. *)
Definition analyze_sentiment (E : World) (text : pystr) : M value :=
  if (List.length (strip text) <? 3)%nat
  then raise (ValueError (lit "Text is too short for sentiment analysis."))
  else
    let lang := guess_language text in
    let '(english_text, translated_text) :=
      if negb (eqb lang (lit "en")) then
        match E.(translate) (lit "en") text with
        | Some t => (t, VStr t)
        | None => (text, VNone)
        end
      else (text, VNone) in
    match E.(sentiment_en) (firstn 512 english_text) with
    | None => raise (ExternalError (lit "sentiment model"))
    | Some (label, score) =>
        ret (VDict [(lit "language", VStr lang);
                    (lit "label", VStr label);
                    (lit "score", VInt score);
                    (lit "translated_text", translated_text)])
    end.

(** [ai_tools.analyze_sentiment(text)], the English-only variant. *)
Definition ai_analyze_sentiment (E : World) (text : pystr) : value :=
  let text := strip text in
  match text with
  | [] => VDict [(lit "label", VStr (lit "NEUTRAL")); (lit "score", VInt 0);
                 (lit "note", VStr (lit "Empty text."))]
  | _ =>
      match E.(ai_sentiment_en) with
      | Some model =>
          if AITools.is_mostly_english E text then
            match model text with
            | Some (label, score) =>
                VDict [(lit "label", VStr label); (lit "score", VInt score);
                       (lit "note", VStr (lit "English sentiment analyzed by AI model."))]
            | None =>
                VDict [(lit "label", VStr (lit "ERROR")); (lit "score", VInt 0);
                       (lit "note", VStr (lit "Error while running sentiment model."))]
            end
          else
            VDict [(lit "label", VStr (lit "UNKNOWN")); (lit "score", VInt 0);
                   (lit "note", VStr (lit "Sentiment model is English-only. For non-English text, sentiment is not analyzed."))]
      | None =>
          VDict [(lit "label", VStr (lit "UNKNOWN")); (lit "score", VInt 0);
                 (lit "note", VStr (lit "Sentiment model is English-only. For non-English text, sentiment is not analyzed."))]
      end
  end.

End Sentiment.

(* ================================================================= *)
(** ** src/tools/job_analyzer.py: pipeline *)

Module JobAnalyzer.

(** [re.sub(r"\s+", " ", text)] *)
Fixpoint collapse_ws (s : pystr) (in_ws : bool) : pystr :=
  match s with
  | [] => []
  | c :: r =>
      if isspace c then (if in_ws then collapse_ws r true else space :: collapse_ws r true)
      else c :: collapse_ws r false
  end.

(** [s.replace(a, b)] for one-character [a] and [b] *)
Definition replace_char (a b : N) (s : pystr) : pystr :=
  map (fun c => if (c =? a)%N then b else c) s.

(** [clean_job_text(text)] *)
Definition clean_job_text (text : pystr) : pystr :=
  let text := collapse_ws text false in
  let text := replace_char 10 space (replace_char 9 space text) in
  strip text.

(** [extract_text_from_url(url)]: each scraping attempt is an event. *)
Definition extract_text_from_url (E : World) (url : pystr) : M pystr :=
  emit (Scrape url) ;;;
  match E.(scrape_plain_text) url with
  | inr text =>
      if negb (match text with [] => true | _ => false end)
         && (50 <? List.length (strip text))%nat
      then ret (clean_job_text text)
      else
        emit (Scrape url) ;;;
        ret (match E.(requests_page_text) url with
             | Some t => clean_job_text t
             | None => []
             end)
  | inl _ =>
      emit (Scrape url) ;;;
      ret (match E.(requests_page_text) url with
           | Some t => clean_job_text t
           | None => []
           end)
  end.

Definition VStrs (l : list pystr) : value := VList (map VStr l).

(** [ai_analyze_job(text)] *)
Definition ai_analyze_job (E : World) (text : pystr) : list (pystr * value) :=
  let summary := AITools.summarize_text E text in
  let summary_fa := AITools.translated (AITools.translate_text E summary (lit "fa")) in
  let skills := Extract.find_skills text in
  let languages := Extract.find_languages text in
  let tech_stack := Extract.find_technologies text in
  let score := JobFit.estimate_job_fit skills in
  [(lit "summary", VStr summary); (lit "summary_translated", VStr summary_fa);
   (lit "skills", VStrs skills); (lit "languages", VStrs languages);
   (lit "tech_stack", VStrs tech_stack); (lit "job_fit_score", VInt score)].

(** [analyze_job_url(url)] *)
Definition analyze_job_url (E : World) (url : pystr) : M value :=
  raw_text <- extract_text_from_url E url ;;
  if (List.length raw_text <? 50)%nat
  then ret (VDict [(lit "error", VStr (lit "Could not extract enough text from URL."))])
  else ret (VDict ([(lit "url", VStr url);
                    (lit "characters", VInt (Z.of_nat (List.length raw_text)));
                    (lit "words", VInt (Z.of_nat (List.length (split raw_text))))]
                   ++ ai_analyze_job E raw_text)).

End JobAnalyzer.

(* ================================================================= *)
(** ** src/api.py: endpoints *)

Module Api.

Definition VNat (n : nat) : value := VInt (Z.of_nat n).

Definition too_short_text : pystr := lit "Text is too short.".
Definition bad_scheme : pystr := lit "URL must start with http:// or https://".

Definition bad_url (url : pystr) : bool :=
  negb (startswith url (lit "http://")) && negb (startswith url (lit "https://")).

(** A clock read: [f] applied to the number of effects so far. *)
Definition now (f : nat -> pystr) : M pystr := fun tr => (inr (f (List.length tr)), tr).

(** [open(path, mode)], which raises [OSError] when the file cannot be
    opened. *)
Definition open_file (E : World) (path : pystr) : M unit :=
  match E.(open_error) path with
  | Some e => raise (ExternalError e)
  | None => ret tt
  end.

(** [report_generator.save_txt/save_json/save_csv]: each reads the clock
    itself. *)
Definition save (E : World) (ext : string) (r : report) : M pystr :=
  stamp <- now E.(now_report) ;;
  let filename := lit "reports/report_" ++ stamp ++ lit ext in
  open_file E filename ;;;
  emit (WriteReport filename r) ;;; ret filename.

(** [logger.log_request(raw_text, cleaned_text)] *)
Definition log_request (E : World) (raw_text cleaned_text : pystr) : M unit :=
  time <- now E.(now_log) ;;
  open_file E (lit "logs/requests.log") ;;;
  emit (AppendLog (lit "logs/requests.log") time raw_text cleaned_text).

(** [json_logger.log_json(raw_text, cleaned_text)] *)
Definition log_json (E : World) (raw_text cleaned_text : pystr) : M unit :=
  time <- now E.(now_iso) ;;
  open_file E (lit "logs/requests.jsonl") ;;;
  emit (AppendLog (lit "logs/requests.jsonl") time raw_text cleaned_text).

(** [POST /process_text] *)
Definition process_text (E : World) (raw_text : pystr) : M value :=
  if (List.length (strip raw_text) <? 3)%nat
  then raise (HTTPException 400 too_short_text)
  else
    let cleaned := E.(clean_text) raw_text in
    log_request E raw_text cleaned ;;;
    log_json E raw_text cleaned ;;;
    let '(num_chars, num_words) := TextStats.get_text_stats cleaned in
    let '(setup, punchline) :=
      match E.(get_joke) with Some j => j | None => ([], []) end in
    let r := {| rep_cleaned := cleaned; rep_chars := num_chars; rep_words := num_words;
                rep_setup := setup; rep_punchline := punchline |} in
    txt_path <- save E ".txt" r ;;
    json_path <- save E ".json" r ;;
    csv_path <- save E ".csv" r ;;
    ret (VDict [(lit "cleaned", VStr cleaned); (lit "characters", VNat num_chars);
                (lit "words", VNat num_words); (lit "joke_setup", VStr setup);
                (lit "joke_punchline", VStr punchline); (lit "report_txt", VStr txt_path);
                (lit "report_json", VStr json_path); (lit "report_csv", VStr csv_path)]).

(** [POST /sentiment] *)
Definition sentiment (E : World) (text : pystr) : M value :=
  data <- Sentiment.analyze_sentiment E text ;;
  label <- getitem data (lit "label") ;;
  score <- getitem data (lit "score") ;;
  note <- getitem data (lit "note") ;;
  ret (VDict [(lit "label", label); (lit "score", score); (lit "note", note)]).

(** [payload.translate_to is not None and payload.translate_to.strip() != ""] *)
Definition wanted_target (translate_to : option pystr) : option pystr :=
  match translate_to with
  | Some tl => match strip tl with [] => None | t => Some t end
  | None => None
  end.

(** [POST /scrape_url_ai] *)
Definition scrape_url_ai (E : World) (url : pystr) (translate_to : option pystr) : M value :=
  let url := strip url in
  if bad_url url then raise (HTTPException 400 bad_scheme)
  else
    emit (Scrape url) ;;;
    match E.(basic_scrape_url) url with
    | inl e => raise (HTTPException 500 (lit "Error scraping URL: " ++ e))
    | inr (domain, extracted_text) =>
        if (List.length (strip extracted_text) <? 20)%nat
        then raise (HTTPException 400 (lit "Extracted text is too short to analyze."))
        else
          let cleaned := E.(clean_text) extracted_text in
          let '(num_chars, num_words) := TextStats.get_text_stats cleaned in
          let summary := AITools.summarize_text E cleaned in
          let summary_translated :=
            match wanted_target translate_to with
            | Some tl => VStr (AITools.translated (AITools.translate_text E summary tl))
            | None => VNone
            end in
          ret (VDict [(lit "url", VStr url); (lit "domain", VStr domain);
                      (lit "cleaned", VStr cleaned); (lit "characters", VNat num_chars);
                      (lit "words", VNat num_words); (lit "summary", VStr summary);
                      (lit "summary_translated", summary_translated)])
    end.

(** [POST /scrape_url] *)
Definition scrape_url_endpoint (E : World) (url : pystr) : M value :=
  let url := strip url in
  emit (Scrape url) ;;;
  match E.(scrape_plain_text) url with
  | inl e => raise (ExternalError e)
  | inr text =>
      ret (VDict [(lit "url", VStr url); (lit "text_length", VNat (List.length text));
                  (lit "preview", VStr (slice_to text 500)); (lit "full_text", VStr text)])
  end.

(** [s.split("\n")] *)
Fixpoint split_on_aux (sep : N) (s : pystr) (cur : pystr) : list pystr :=
  match s with
  | [] => [rev cur]
  | c :: r => if (c =? sep)%N then rev cur :: split_on_aux sep r [] else split_on_aux sep r (c :: cur)
  end.

Definition split_on (sep : N) (s : pystr) : list pystr := split_on_aux sep s [].

(** The rows [index, url, line] of the non-empty stripped lines. *)
Fixpoint csv_rows (url : pystr) (index : nat) (lines : list pystr) : list (nat * pystr * pystr) :=
  match lines with
  | [] => []
  | line :: r =>
      match strip line with
      | [] => csv_rows url index r
      | l => (index, url, l) :: csv_rows url (S index) r
      end
  end.

(** [POST /scrape_to_csv] *)
Definition scrape_to_csv (E : World) (url : pystr) : M value :=
  let url := strip url in
  if bad_url url then raise (HTTPException 400 bad_scheme)
  else
    emit (Scrape url) ;;;
    match E.(scrape_plain_text) url with
    | inl e => raise (HTTPException 500 (lit "Error scraping URL: " ++ e))
    | inr text =>
        if (List.length (strip text) <? 10)%nat
        then raise (HTTPException 400 (lit "Extracted text is too short to save."))
        else
          emit (MakeDirs (lit "data")) ;;;
          let filepath := lit "data/scrape_" ++ E.(uuid_hex) ++ lit ".csv" in
          emit (WriteCsv filepath [lit "index"; lit "url"; lit "line"]
                         (csv_rows url 1 (split_on 10 text))) ;;;
          ret (VDict [(lit "csv_file", VStr filepath)])
    end.

(** [POST /analyze_url_ai] *)
Definition analyze_url_ai (E : World) (url : pystr) (translate_to : option pystr) : M value :=
  let url := strip url in
  if bad_url url then raise (HTTPException 400 bad_scheme)
  else
    match E.(netloc) url with
    | inl e => raise (ExternalError e)
    | inr domain =>
    emit (Scrape url) ;;;
    match E.(scrape_plain_text) url with
    | inl e => raise (HTTPException 500 (lit "Error scraping URL: " ++ e))
    | inr raw_text =>
        if (List.length (strip raw_text) <? 50)%nat
        then raise (HTTPException 400 (lit "Extracted text is too short to analyze."))
        else
          let cleaned := E.(clean_text) raw_text in
          let '(num_chars, num_words) := TextStats.get_text_stats cleaned in
          let summary := AITools.summarize_text E cleaned in
          let summary_translated :=
            match wanted_target translate_to with
            | Some tl => VStr (AITools.translated (AITools.translate_text E summary tl))
            | None => VNone
            end in
          let keywords := Keywords.extract_keywords_simple cleaned 10 in
          ret (VDict [(lit "url", VStr url); (lit "domain", VStr domain);
                      (lit "characters", VNat num_chars); (lit "words", VNat num_words);
                      (lit "summary", VStr summary);
                      (lit "summary_translated", summary_translated);
                      (lit "keywords", JobAnalyzer.VStrs keywords)])
    end
    end.

(** [POST /analyze_job] *)
Definition analyze_job (E : World) (url : pystr) : M value :=
  let url := strip url in
  if bad_url url then raise (HTTPException 400 bad_scheme)
  else
    result <- JobAnalyzer.analyze_job_url E url ;;
    match result with
    | VDict kv =>
        match lookup (lit "error") kv with
        | Some (VStr err) => raise (HTTPException 400 err)
        | _ => ret result
        end
    | _ => ret result
    end.

End Api.

(* ================================================================= *)
(** ** Sample collaborators *)

Module Samples.

(** Collaborators that all fail or are absent, except a playwright
    scraper returning a 15-character page and a sentiment model that
    answers [POSITIVE]; every file opens and the clock stands still. *)
Definition world : World := {|
  clean_text := strip;
  isalpha := AITools.is_ascii_letter;
  summarizer_en := None;
  ai_sentiment_en := None;
  sentiment_en := fun _ => Some (lit "POSITIVE", 1%Z);
  detect := fun _ => None;
  translate := fun _ _ => None;
  get_joke := None;
  scrape_plain_text := fun _ => inr (lit "fifteen chars!!");
  basic_scrape_url := fun _ => inr (lit "example.com", lit "short page");
  requests_page_text := fun _ => None;
  netloc := fun u => inr u;
  now_report := fun _ => lit "20260101_000000";
  now_log := fun _ => lit "2026-01-01 00:00:00";
  now_iso := fun _ => lit "2026-01-01T00:00:00";
  open_error := fun _ => None;
  uuid_hex := lit "0123abcd"
|}.

(** The same, with a translation service that answers the empty string. *)
Definition world_empty_translation : World := {|
  clean_text := strip;
  isalpha := AITools.is_ascii_letter;
  summarizer_en := None;
  ai_sentiment_en := None;
  sentiment_en := fun _ => None;
  detect := fun _ => Some (lit "de");
  translate := fun _ _ => Some [];
  get_joke := None;
  scrape_plain_text := fun _ => inl (lit "timeout");
  basic_scrape_url := fun _ => inl (lit "timeout");
  requests_page_text := fun _ => None;
  netloc := fun u => inr u;
  now_report := fun _ => lit "20260101_000000";
  now_log := fun _ => lit "2026-01-01 00:00:00";
  now_iso := fun _ => lit "2026-01-01T00:00:00";
  open_error := fun _ => None;
  uuid_hex := lit "0123abcd"
|}.


End Samples.

(* ================================================================= *)
(** ** src/api.py: the other endpoints *)

Module Endpoints.

Import Api.

(** [get_joke()] without a guard: its exception propagates. *)
Definition get_joke_or_raise (E : World) : M (pystr * pystr) :=
  match E.(get_joke) with
  | Some j => ret j
  | None => raise (ExternalError (lit "get_joke"))
  end.


(** [GET /process] *)
Definition process (E : World) (text : pystr) : M value :=
  let cleaned := E.(clean_text) text in
  let '(num_chars, num_words) := TextStats.get_text_stats cleaned in
  j <- get_joke_or_raise E ;;
  let '(setup, punchline) := j in
  ret (VDict [(lit "cleaned", VStr cleaned); (lit "characters", VNat num_chars);
              (lit "words", VNat num_words); (lit "joke_setup", VStr setup);
              (lit "joke_punchline", VStr punchline)]).





(** [POST /summarize] *)
Definition summarize (E : World) (text : pystr) : M value :=
  if (List.length (strip text) <? 10)%nat
  then raise (HTTPException 400 (lit "Text too short."))
  else
    let summary := AITools.summarize_text E text in
    ret (VDict [(lit "original", VStr text); (lit "summary", VStr summary)]).


(** [try ... except]: the handler sees the exception and the trace so far. *)
Definition try_catch {A} (m : M A) (h : exn -> M A) : M A :=
  fun tr => match m tr with
            | (inl e, tr') => h e tr'
            | ok => ok
            end.

(** [str(e)] of the exceptions [analyze_sentiment] raises. *)
Definition exn_str (e : exn) : pystr :=
  match e with
  | HTTPException _ d => d
  | ValueError m => m
  | KeyError k => lit "'" ++ k ++ lit "'"
  | ExternalError m => m
  end.

(** [POST /sentiment_ai] *)
Definition sentiment_ai (E : World) (text : pystr) : M value :=
  if (List.length (strip text) <? 3)%nat
  then raise (HTTPException 400 too_short_text)
  else
    result <- try_catch (Sentiment.analyze_sentiment E text)
                (fun e => match e with
                          | ValueError ve => raise (HTTPException 400 ve)
                          | e => raise (HTTPException 500
                                          (lit "Sentiment analysis failed: " ++ exn_str e))
                          end) ;;
    language <- getitem result (lit "language") ;;
    label <- getitem result (lit "label") ;;
    score <- getitem result (lit "score") ;;
    translated_text <- getitem result (lit "translated_text") ;;
    ret (VDict [(lit "language", language); (lit "label", label); (lit "score", score);
                (lit "translated_text", translated_text)]).

End Endpoints.

(* ================================================================= *)
(** ** src/tools/clean_names.py *)

Module CleanNames.

(** [clean_name(line)]; [capitalize] is [str.capitalize] (Unicode case
    tables). *)
Definition clean_name (capitalize : pystr -> pystr) (line : pystr) : pystr :=
  let line := strip line in
  let parts := split line in
  let parts := map capitalize parts in
  join [space] parts.

End CleanNames.

(* ================================================================= *)
(** ** src/job_radar.py *)

Module JobRadar.

(** Console output and the CSV file written by [csv.DictWriter]. *)
Inductive out :=
| PrintLn (msg : pystr)
| CsvHeader (path : pystr) (fieldnames : list pystr)
| CsvRow (path : pystr) (row : list (pystr * value)).

(** Newline translation of text-mode reading: ["\r\n"] and ["\r"] become
    ["\n"]; [after_cr] is whether the previous character was ["\r"]. *)
Fixpoint universal_newlines (s : pystr) (after_cr : bool) : pystr :=
  match s with
  | [] => []
  | c :: r =>
      if after_cr && (c =? 10)%N then universal_newlines r false
      else if (c =? 13)%N then 10%N :: universal_newlines r true
      else c :: universal_newlines r false
  end.

(** [for line in f]: the lines, each with its ["\n"] ([cur] reversed). *)
Fixpoint lines_aux (s cur : pystr) : list pystr :=
  match s with
  | [] => match cur with [] => [] | _ => [rev cur] end
  | c :: r => if (c =? 10)%N then rev (c :: cur) :: lines_aux r [] else lines_aux r (c :: cur)
  end.

Definition file_lines (content : pystr) : list pystr :=
  lines_aux (universal_newlines content false) [].

(** What is at [path]: nothing ([os.path.exists(path)] is false),
    something [open(path, "r", encoding="utf-8")] or the line iteration
    raises on (a directory, bytes that are not UTF-8, ...), or a text file
    with its decoded contents. *)
Inductive path_state :=
| Absent
| Unreadable (err : pystr)
| TextFile (content : pystr).

(** [load_job_urls(path)]: the output and the returned list, or the
    exception it raises. *)
Definition load_job_urls (path : pystr) (file : path_state) : list out * (exn + list pystr) :=
  match file with
  | Absent =>
      ([PrintLn (lit "[WARN] '" ++ path ++
                 lit "' not found. Please create it and add job URLs (one per line).")], inr [])
  | Unreadable err => ([], inl (ExternalError err))
  | TextFile content =>
      ([], inr (fold_left (fun urls line =>
                             let url := strip line in
                             match url with [] => urls | _ => urls ++ [url] end)
                          (file_lines content) []))
  end.



(** [item.get(k, default)]; [None] when [item] is not a dict
    ([AttributeError]). *)
Definition get (item : value) (k : pystr) (default : value) : option value :=
  match item with
  | VDict kv => Some (match lookup k kv with Some v => v | None => default end)
  | _ => None
  end.

Fixpoint all_strs (l : list value) : option (list pystr) :=
  match l with
  | [] => Some []
  | VStr s :: r => match all_strs r with Some ss => Some (s :: ss) | None => None end
  | _ :: _ => None
  end.

(** [", ".join(v)] over what iterating [v] gives; [None] is [TypeError]. *)
Definition join_comma (v : value) : option value :=
  let sep := lit ", " in
  match v with
  | VList l => match all_strs l with Some ss => Some (VStr (join sep ss)) | None => None end
  | VStr s => Some (VStr (join sep (map (fun c => [c]) s)))
  | VDict kv => Some (VStr (join sep (map fst kv)))
  | _ => None
  end.

Definition fieldnames : list pystr := map lit
  ["url"; "characters"; "words"; "summary"; "skills"; "languages"; "tech_stack";
   "job_fit_score"]%string.

(** The dict passed to [writer.writerow] for one result. *)
Definition row_of (item : value) : option (list (pystr * value)) :=
  match get item (lit "url") (VStr []), get item (lit "characters") (VInt 0),
        get item (lit "words") (VInt 0), get item (lit "summary") (VStr []) with
  | Some url, Some characters, Some words, Some summary =>
      match get item (lit "skills") (VList []) with
      | None => None
      | Some sk =>
      match join_comma sk with
      | None => None
      | Some skills =>
      match get item (lit "languages") (VList []) with
      | None => None
      | Some la =>
      match join_comma la with
      | None => None
      | Some languages =>
      match get item (lit "tech_stack") (VList []) with
      | None => None
      | Some te =>
      match join_comma te with
      | None => None
      | Some tech_stack =>
      match get item (lit "job_fit_score") (VInt 0) with
      | None => None
      | Some job_fit_score =>
          Some [(lit "url", url); (lit "characters", characters); (lit "words", words);
                (lit "summary", summary); (lit "skills", skills); (lit "languages", languages);
                (lit "tech_stack", tech_stack); (lit "job_fit_score", job_fit_score)]
      end end end end end end end
  | _, _, _, _ => None
  end.



End JobRadar.

(* ================================================================= *)
(** ** Auxiliary predicates of the extra proofs *)

(** Nonempty words without whitespace, as [str.split()] returns them. *)
Definition word (w : pystr) : Prop := w <> [] /\ Forall (fun c => isspace c = false) w.

(** [if line:] on a [str] *)
Definition nonempty (l : pystr) : bool := match l with [] => false | _ => true end.

(** The row [save_results_to_csv] writes for a dict with none of its keys. *)
Definition default_row : list (pystr * value) :=
  [(lit "url", VStr []); (lit "characters", VInt 0); (lit "words", VInt 0);
   (lit "summary", VStr []); (lit "skills", VStr []); (lit "languages", VStr []);
   (lit "tech_stack", VStr []); (lit "job_fit_score", VInt 0)].

(** ** Auxiliary predicates of the proofs *)

(** [str] comparison [a < b]. *)
Definition str_lt (a b : pystr) : Prop := ltb a b = true.

(** What follows a maximal run of letters. *)
Definition ends_run (rest : pystr) : Prop :=
  match rest with [] => True | c :: _ => AITools.is_ascii_letter c = false end.

(** The keys of the counter, in first-seen order. *)
Definition counter_inv (P K : list pystr) : Prop :=
  NoDup K /\ (forall k, In k K <-> In k P) /\
  StronglySorted (fun a b => KeywordsSpec.first_index a P < KeywordsSpec.first_index b P) K.

(** The order [sort_desc] establishes from an order [Q] of its input. *)
Definition by_count (Q : pystr * nat -> pystr * nat -> Prop) (x y : pystr * nat) : Prop :=
  snd y < snd x \/ (snd x = snd y /\ Q x y).


(* ================================================================= *)
(** * Proofs *)

(** ** Python string lemmas *)

Lemma lstrip_decomp (s : pystr) :
  exists w, s = w ++ lstrip s /\ Forall (fun c => isspace c = true) w.
Proof.
  induction s as [|c r IH]; simpl.
  - exists []. auto.
  - destruct (isspace c) eqn:Hc.
    + destruct IH as [w [Hw Hf]]. exists (c :: w). simpl. rewrite <- Hw. auto.
    + exists []. auto.
Qed.

Lemma split_lstrip (s : pystr) : split (lstrip s) = split s.
Proof.
  induction s as [|c r IH]; simpl; [reflexivity|].
  destruct (isspace c) eqn:Hc; [|reflexivity].
  rewrite IH. unfold split. simpl. rewrite Hc. reflexivity.
Qed.

Lemma split_aux_app_space (s cur : pystr) (c : N) :
  isspace c = true -> split_aux (s ++ [c]) cur = split_aux s cur.
Proof.
  intros Hc. revert cur. induction s as [|d r IH]; intros cur; simpl.
  - rewrite Hc. destruct cur; reflexivity.
  - destruct (isspace d); [destruct cur; rewrite IH; reflexivity|apply IH].
Qed.

Lemma split_aux_app_spaces (w s cur : pystr) :
  Forall (fun c => isspace c = true) w -> split_aux (s ++ w) cur = split_aux s cur.
Proof.
  intros Hw. revert s. induction Hw as [|c w Hc Hw IH]; intros s.
  - rewrite app_nil_r. reflexivity.
  - replace (s ++ c :: w) with ((s ++ [c]) ++ w) by (rewrite <- app_assoc; reflexivity).
    rewrite IH. apply split_aux_app_space. exact Hc.
Qed.

Lemma split_rstrip (s : pystr) : split (rstrip s) = split s.
Proof.
  unfold rstrip. destruct (lstrip_decomp (rev s)) as [w [Hw Hf]].
  assert (Hs : s = rev (lstrip (rev s)) ++ rev w).
  { rewrite <- rev_app_distr, <- Hw, rev_involutive. reflexivity. }
  unfold split. rewrite Hs at 2. symmetry. apply split_aux_app_spaces.
  apply Forall_rev. exact Hf.
Qed.

Lemma split_strip (s : pystr) : split (strip s) = split s.
Proof. unfold strip. rewrite split_rstrip. apply split_lstrip. Qed.

(** ** text_stats *)

(** Claim C3 (as amended): [get_text_stats t] is [(0, 0)] exactly when
    the stripped text is empty; otherwise it is the length of the
    STRIPPED text and the number of whitespace-delimited tokens of [t].
    The function is total. *)
Theorem get_text_stats_spec (t : pystr) :
  (TextStats.get_text_stats t = (0, 0) <-> strip t = []) /\
  (strip t <> [] ->
   TextStats.get_text_stats t = (List.length (strip t), List.length (split t))).
Proof.
  unfold TextStats.get_text_stats. rewrite <- (split_strip t).
  destruct (strip t) as [|c r]; split.
  - tauto.
  - intros H; exfalso; apply H; reflexivity.
  - split; [intros H; inversion H | intros H; discriminate].
  - intros _. reflexivity.
Qed.

Lemma get_text_stats_spec_witness :
  lit "  hi there " <> [] /\
  TextStats.get_text_stats (lit "  hi there ") = (8, 2).
Proof.
  split; [discriminate|].
  rewrite (proj2 (get_text_stats_spec (lit "  hi there "))); [reflexivity|].
  vm_compute. discriminate.
Defined.

(** Claim C3 fails as stated: the character count is not the length of
    the input when the input has surrounding whitespace. *)
Lemma get_text_stats_counterexample :
  strip (lit " ab") <> [] /\
  fst (TextStats.get_text_stats (lit " ab")) <> List.length (lit " ab").
Proof. vm_compute. split; discriminate. Qed.

(** ** estimate_job_fit *)

(** Claim C7: the fit score is [20] for no skills and
    [min(95, 40 + 7 |skills|)] otherwise; it is monotone in the number of
    skills and lies in [[20, 95]]. *)
Theorem estimate_job_fit_spec :
  (forall skills : list pystr,
     JobFit.estimate_job_fit skills =
       match skills with
       | [] => 20
       | _ => Z.min 95 (40 + 7 * Z.of_nat (List.length skills))
       end%Z
     /\ (20 <= JobFit.estimate_job_fit skills <= 95)%Z) /\
  (forall s1 s2 : list pystr,
     List.length s1 <= List.length s2 ->
     (JobFit.estimate_job_fit s1 <= JobFit.estimate_job_fit s2)%Z).
Proof.
  unfold JobFit.estimate_job_fit. split.
  - intros [|x r]; [lia|]. split; [lia|].
    rewrite length_cons, Nat2Z.inj_succ. lia.
  - intros [|x r] [|y q]; rewrite ?length_cons, ?Nat2Z.inj_succ;
      simpl List.length; intros H; lia.
Qed.

Lemma estimate_job_fit_spec_witness :
  List.length [lit "sql"] <= List.length [lit "python"; lit "docker"] /\
  (JobFit.estimate_job_fit [lit "sql"] <=
   JobFit.estimate_job_fit [lit "python"; lit "docker"])%Z.
Proof.
  split; [simpl; lia|].
  apply (proj2 estimate_job_fit_spec). simpl. lia.
Defined.

(** ** /process_text *)

(** Claim C2: a stripped text shorter than 3 characters makes
    [/process_text] raise [HTTPException(400, "Text is too short.")]
    with the effect trace unchanged: no log line, no report file. *)
Theorem process_text_too_short (E : World) (raw_text : pystr) (tr : list event) :
  List.length (strip raw_text) < 3 ->
  Api.process_text E raw_text tr =
    (inl (HTTPException 400 (lit "Text is too short.")), tr).
Proof.
  intros H. unfold Api.process_text.
  apply Nat.ltb_lt in H. rewrite H. reflexivity.
Qed.

Lemma process_text_too_short_witness :
  List.length (strip (lit "ok")) < 3 /\
  Api.process_text Samples.world (lit "ok") [] =
    (inl (HTTPException 400 (lit "Text is too short.")), []).
Proof.
  split; [vm_compute; lia|].
  apply process_text_too_short. vm_compute. lia.
Defined.

(** ** /sentiment *)

(** Claim C1 (code bug): [/sentiment] raises on every input.  The
    imported [sentiment.analyze_sentiment] raises [ValueError] for short
    text, or the model error, and otherwise returns a dict without a
    ["note"] key, so [data["note"]] raises [KeyError]. *)
Theorem sentiment_endpoint_always_raises (E : World) (text : pystr) (tr : list event) :
  exists e, Api.sentiment E text tr = (inl e, tr) /\
    (e = KeyError (lit "note") \/ exists m, e = ValueError m \/ e = ExternalError m).
Proof.
  unfold Api.sentiment, Sentiment.analyze_sentiment, bind, raise, ret.
  destruct (List.length (strip text) <? 3)%nat.
  - eexists. split; [reflexivity|]. right. eexists. left. reflexivity.
  - destruct (negb (eqb (Sentiment.guess_language text) (lit "en"))).
    + destruct (E.(translate) (lit "en") text) as [t|];
        destruct (E.(sentiment_en) _) as [[label score]|];
        (eexists; split; [reflexivity|]);
        first [left; reflexivity | right; eexists; right; reflexivity].
    + destruct (E.(sentiment_en) _) as [[label score]|];
        (eexists; split; [reflexivity|]);
        first [left; reflexivity | right; eexists; right; reflexivity].
Qed.

(** ** ai_tools: summarize_text *)

Lemma slice_if_long (n : nat) (t : pystr) :
  (if (n <? List.length t)%nat then slice_to t n else t) = firstn n t.
Proof.
  unfold slice_to. destruct (Nat.ltb_spec n (List.length t)); [reflexivity|].
  symmetry. apply firstn_all2. lia.
Qed.

(** Claim C4 (as amended): a STRIPPED text shorter than 20 characters is
    returned as is (stripped); a longer one, when the summarizer is not
    loaded or its call fails, gives [simple_summary] of the stripped text
    cut to 4000 characters.  [summarize_text] is total: it always returns
    a string. *)
Theorem summarize_text_spec (E : World) (text : pystr) :
  (List.length (strip text) < 20 -> AITools.summarize_text E text = strip text) /\
  (20 <= List.length (strip text) ->
   (E.(summarizer_en) = None \/
    exists f, E.(summarizer_en) = Some f /\ f (firstn 4000 (strip text)) = None) ->
   AITools.summarize_text E text = AITools.simple_summary (firstn 4000 (strip text))).
Proof.
  unfold AITools.summarize_text. split.
  - intros H. apply Nat.ltb_lt in H. rewrite H. reflexivity.
  - intros H Hs. apply Nat.ltb_ge in H. rewrite H.
    unfold AITools.MAX_INPUT_CHARS. rewrite slice_if_long.
    destruct Hs as [Hn | [f [Hf Hc]]].
    + rewrite Hn. reflexivity.
    + rewrite Hf, Hc. destruct (AITools.is_mostly_english E _); reflexivity.
Qed.

Lemma summarize_text_spec_witness :
  20 <= List.length (strip (lit "Nothing to summarize here, the model is absent.")) /\
  AITools.summarize_text Samples.world (lit "Nothing to summarize here, the model is absent.") =
    AITools.simple_summary
      (firstn 4000 (strip (lit "Nothing to summarize here, the model is absent."))).
Proof.
  split; [vm_compute; lia|].
  apply (proj2 (summarize_text_spec _ _)); [vm_compute; lia|].
  left. reflexivity.
Defined.

(** Claim C4 fails as stated: a short input is returned stripped, not
    unchanged. *)
Lemma summarize_text_counterexample :
  List.length (lit " hi") < 20 /\
  AITools.summarize_text Samples.world (lit " hi") <> lit " hi".
Proof. split; [vm_compute; lia | vm_compute; discriminate]. Qed.

(** ** ai_tools: translate_text *)

(** Claim C5 (as amended): an input that strips to empty gives
    [{None, target_lang, "", ""}]; otherwise [original] is the stripped
    text, [source_lang] is the detected language or the sentinel
    ["auto"], and [translated] is the service's answer or, when the
    service raises, the stripped text.  The answer is not checked, so
    [translated] is empty for a non-empty input exactly when the service
    answers the empty string. *)
Theorem translate_text_spec (E : World) (text tl : pystr) :
  (strip text = [] ->
   AITools.translate_text E text tl =
     {| AITools.source_lang := None; AITools.target_lang := tl;
        AITools.original := []; AITools.translated := [] |}) /\
  (strip text <> [] ->
   let r := AITools.translate_text E text tl in
   AITools.original r = strip text /\ AITools.target_lang r = tl /\
   AITools.source_lang r =
     Some (match E.(detect) (strip text) with Some l => l | None => lit "auto" end) /\
   (E.(translate) tl (strip text) = None -> AITools.translated r = strip text) /\
   (forall t, E.(translate) tl (strip text) = Some t -> AITools.translated r = t)) /\
  (AITools.translated (AITools.translate_text E text tl) = [] ->
   strip text = [] \/ E.(translate) tl (strip text) = Some []).
Proof.
  unfold AITools.translate_text.
  destruct (strip text) as [|c r] eqn:Hs.
  - split; [reflexivity|]. split; [intros H; exfalso; apply H; reflexivity|].
    intros _. left. reflexivity.
  - split; [intros H; discriminate|]. cbv zeta.
    destruct (E.(translate) tl (c :: r)) as [t|] eqn:Ht. split.
    + intros _. repeat split; try reflexivity.
      * intros H. discriminate.
      * intros t' H. injection H as <-. reflexivity.
    + simpl. intros H. right. rewrite H. reflexivity.
    + split.
      * intros _. repeat split; try reflexivity. intros t' H. discriminate.
      * simpl. intros H. discriminate.
Qed.

Lemma translate_text_spec_witness :
  strip (lit " hallo ") <> [] /\
  AITools.original (AITools.translate_text Samples.world (lit " hallo ") (lit "en")) =
    lit "hallo" /\
  (strip (lit "") = [] /\
   AITools.translate_text Samples.world (lit "") (lit "fa") =
     {| AITools.source_lang := None; AITools.target_lang := lit "fa";
        AITools.original := []; AITools.translated := [] |}).
Proof.
  split; [vm_compute; discriminate|]. split.
  - rewrite (proj1 ((proj1 (proj2 (translate_text_spec Samples.world (lit " hallo ") (lit "en"))))
      ltac:(vm_compute; discriminate))). vm_compute. reflexivity.
  - split; [reflexivity|].
    apply (proj1 (translate_text_spec Samples.world (lit "") (lit "fa"))). reflexivity.
Defined.

(** Claim C5 fails as stated: with a service answering [""], a
    non-empty text is translated to the empty string. *)
Lemma translate_text_counterexample :
  AITools.original
    (AITools.translate_text Samples.world_empty_translation (lit "hallo") (lit "en")) <> [] /\
  AITools.translated
    (AITools.translate_text Samples.world_empty_translation (lit "hallo") (lit "en")) = [].
Proof. split; [vm_compute; discriminate | reflexivity]. Qed.

(** ** ai_tools: simple_summary *)

Lemma rfind_aux_spec (c : N) (s : pystr) : forall i acc,
  (rfind_aux s c i acc = acc /\ forall j, nth_error s j <> Some c) \/
  (exists j, rfind_aux s c i acc = Some (i + j) /\ nth_error s j = Some c /\
     forall j', j < j' -> nth_error s j' <> Some c).
Proof.
  induction s as [|d r IH]; intros i acc; simpl.
  - left. split; [reflexivity|]. intros [|j]; discriminate.
  - destruct (IH (S i) (if (d =? c)%N then Some i else acc))
      as [[Hr Hn] | [j [Hr [Hj Hn]]]].
    + rewrite Hr. destruct (N.eqb_spec d c) as [<-|Hdc].
      * right. exists 0. rewrite Nat.add_0_r. split; [reflexivity|split; [reflexivity|]].
        intros [|j'] H; [lia|]. apply Hn.
      * left. split; [reflexivity|].
        intros [|j]; simpl; [intros H; injection H; exact Hdc|apply Hn].
    + right. exists (S j). rewrite Hr. split; [f_equal; lia|split; [exact Hj|]].
      intros [|j'] H; [lia|]. simpl. apply Hn. lia.
Qed.

Lemma rfind_spec (s : pystr) (c : N) :
  (rfind s c = None /\ forall j, nth_error s j <> Some c) \/
  (exists j, rfind s c = Some j /\ nth_error s j = Some c /\
     forall j', j < j' -> nth_error s j' <> Some c).
Proof. apply rfind_aux_spec. Qed.

(** Claim C10 (as amended): with the default parameters, [simple_summary]
    returns at most 403 characters: the stripped input when it has at
    most 400 characters; otherwise the stripped join [s] of the first
    three sentences when [s] has at most 400 characters; otherwise
    [s[:k] + "..."], where [k] is the position of the last space among
    the first 400 characters of [s], or [k = 400] when there is none. *)
Theorem simple_summary_spec (text : pystr) :
  let t := strip text in
  let s := strip (join [space] (firstn 3 (AITools.sentence_split t))) in
  List.length (AITools.simple_summary text) <= 403 /\
  (List.length t <= 400 -> AITools.simple_summary text = t) /\
  (400 < List.length t -> List.length s <= 400 -> AITools.simple_summary text = s) /\
  (400 < List.length t -> 400 < List.length s ->
   exists k, AITools.simple_summary text = firstn k s ++ lit "..." /\
     ((k < 400 /\ nth_error s k = Some space /\
       forall j, k < j < 400 -> nth_error s j <> Some space) \/
      (k = 400 /\ forall j, j < 400 -> nth_error s j <> Some space))).
Proof.
  cbv zeta. unfold AITools.simple_summary, AITools.simple_summary_with.
  destruct (strip text) as [|c r] eqn:Ht.
  - simpl. repeat split; intros; try reflexivity; lia.
  - set (t := c :: r).
    set (s := strip (join [space] (firstn 3 (AITools.sentence_split t)))).
    change (match t with [] => [] | _ :: _ => _ end) with
      (if (List.length t <=? 400)%nat then t
       else if (400 <? List.length s)%nat then
         (match rfind (slice_to s 400) space with
          | Some last_space => slice_to (slice_to s 400) last_space
          | None => slice_to s 400
          end) ++ lit "..."
       else s).
    destruct (Nat.leb_spec (List.length t) 400) as [Hle|Hgt].
    { repeat split; intros; try reflexivity; lia. }
    destruct (Nat.ltb_spec 400 (List.length s)) as [Hs|Hs].
    2:{ repeat split; intros; try reflexivity; lia. }
    unfold slice_to.
    destruct (rfind_spec (firstn 400 s) space) as [[Hr Hn] | [k [Hr [Hk Hn]]]];
      rewrite Hr.
    + split.
      { rewrite length_app, length_firstn.
        change (List.length (lit "...")) with 3. lia. }
      repeat split; intros; try lia.
      exists 400. split; [reflexivity|]. right. split; [reflexivity|].
      intros j Hj. specialize (Hn j). rewrite nth_error_firstn in Hn.
      apply Nat.ltb_lt in Hj. rewrite Hj in Hn. exact Hn.
    + assert (Hk4 : k < 400).
      { rewrite nth_error_firstn in Hk.
        destruct (Nat.ltb_spec k 400); [assumption|discriminate]. }
      rewrite firstn_firstn, Nat.min_l by lia.
      split.
      { rewrite length_app, length_firstn.
        change (List.length (lit "...")) with 3. lia. }
      repeat split; intros; try lia.
      exists k. split; [reflexivity|]. left. repeat split; [exact Hk4| |].
      * rewrite nth_error_firstn in Hk. apply Nat.ltb_lt in Hk4.
        rewrite Hk4 in Hk. exact Hk.
      * intros j Hj. specialize (Hn j (proj1 Hj)). rewrite nth_error_firstn in Hn.
        assert (Hj4 : (j <? 400)%nat = true) by (apply Nat.ltb_lt; lia).
        rewrite Hj4 in Hn. exact Hn.
Qed.

Lemma simple_summary_spec_witness :
  List.length (strip (lit "Short text. Kept as is.")) <= 400 /\
  AITools.simple_summary (lit "Short text. Kept as is.") = lit "Short text. Kept as is.".
Proof.
  split; [vm_compute; lia|].
  apply (proj1 (proj2 (simple_summary_spec (lit "Short text. Kept as is."))));
    vm_compute; lia.
Defined.

(** Claim C10 fails as stated: 401 letters without a space are cut at
    400 characters, not back to a last space (there is none). *)
Lemma simple_summary_counterexample :
  let text := repeat 97%N 401 in
  let s := strip (join [space] (firstn 3 (AITools.sentence_split (strip text)))) in
  400 < List.length (strip text) /\ 400 < List.length s /\
  ~ (exists k, k < 400 /\ nth_error s k = Some space /\
       AITools.simple_summary text = firstn k s ++ lit "...").
Proof.
  cbv zeta.
  assert (Hs : strip (join [space] (firstn 3 (AITools.sentence_split
                 (strip (repeat 97%N 401))))) = repeat 97%N 401)
    by (vm_compute; reflexivity).
  rewrite Hs. split; [vm_compute; lia|]. split; [rewrite repeat_length; lia|].
  intros [k [Hk [Hn _]]]. rewrite nth_error_repeat in Hn by lia. discriminate.
Qed.

(** ** URL endpoints *)

(** Claim C6 (as amended): [/scrape_url_ai], [/scrape_to_csv],
    [/analyze_url_ai] and [/analyze_job] answer 400 to a stripped URL
    without an [http://] or [https://] prefix before any scrape (the
    trace is unchanged); they answer 400 to thin content: under 20
    stripped characters for [/scrape_url_ai], under 10 for
    [/scrape_to_csv], under 50 for [/analyze_url_ai] once [urlparse] has
    accepted the URL, and under 50 characters of whitespace-normalised
    text for [/analyze_job].  When [urlparse] raises (e.g. at
    ["http://[abc"]), [/analyze_url_ai] fails with that error (a 500)
    before any scrape.  [/scrape_url] checks nothing and always
    scrapes. *)
Theorem url_endpoints_validation (E : World) (url : pystr) (translate_to : option pystr)
    (tr : list event) :
  let u := strip url in
  let bad := HTTPException 400 (lit "URL must start with http:// or https://") in
  (Api.bad_url u = true ->
     Api.scrape_url_ai E url translate_to tr = (inl bad, tr) /\
     Api.scrape_to_csv E url tr = (inl bad, tr) /\
     Api.analyze_url_ai E url translate_to tr = (inl bad, tr) /\
     Api.analyze_job E url tr = (inl bad, tr)) /\
  (Api.bad_url u = false ->
     (forall domain x, E.(basic_scrape_url) u = inr (domain, x) ->
        List.length (strip x) < 20 ->
        Api.scrape_url_ai E url translate_to tr =
          (inl (HTTPException 400 (lit "Extracted text is too short to analyze.")),
           tr ++ [Scrape u])) /\
     (forall x, E.(scrape_plain_text) u = inr x -> List.length (strip x) < 10 ->
        Api.scrape_to_csv E url tr =
          (inl (HTTPException 400 (lit "Extracted text is too short to save.")),
           tr ++ [Scrape u])) /\
     (forall d x, E.(netloc) u = inr d ->
        E.(scrape_plain_text) u = inr x -> List.length (strip x) < 50 ->
        Api.analyze_url_ai E url translate_to tr =
          (inl (HTTPException 400 (lit "Extracted text is too short to analyze.")),
           tr ++ [Scrape u])) /\
     (forall e, E.(netloc) u = inl e ->
        Api.analyze_url_ai E url translate_to tr = (inl (ExternalError e), tr)) /\
     (forall raw tr', JobAnalyzer.extract_text_from_url E u tr = (inr raw, tr') ->
        List.length raw < 50 ->
        Api.analyze_job E url tr =
          (inl (HTTPException 400 (lit "Could not extract enough text from URL.")), tr'))) /\
  snd (Api.scrape_url_endpoint E url tr) = tr ++ [Scrape u].
Proof.
  cbv zeta. split; [|split].
  - intros Hb. unfold Api.scrape_url_ai, Api.scrape_to_csv, Api.analyze_url_ai,
      Api.analyze_job. rewrite Hb. repeat split.
  - intros Hb. unfold Api.scrape_url_ai, Api.scrape_to_csv, Api.analyze_url_ai,
      Api.analyze_job. rewrite Hb. repeat split.
    + intros domain x Hx Hl. apply Nat.ltb_lt in Hl.
      unfold bind, emit. rewrite Hx, Hl. reflexivity.
    + intros x Hx Hl. apply Nat.ltb_lt in Hl.
      unfold bind, emit. rewrite Hx, Hl. reflexivity.
    + intros d x Hd Hx Hl. apply Nat.ltb_lt in Hl.
      rewrite Hd. unfold bind, emit. rewrite Hx, Hl. reflexivity.
    + intros e He. rewrite He. reflexivity.
    + intros raw tr' Hx Hl. apply Nat.ltb_lt in Hl.
      unfold JobAnalyzer.analyze_job_url, bind.
      rewrite Hx, Hl. reflexivity.
  - unfold Api.scrape_url_endpoint, bind, emit.
    destruct (E.(scrape_plain_text) (strip url)); reflexivity.
Qed.

Lemma url_endpoints_validation_witness :
  Api.bad_url (strip (lit " ftp://example.com")) = true /\
  Api.scrape_url_ai Samples.world (lit " ftp://example.com") None [] =
    (inl (HTTPException 400 (lit "URL must start with http:// or https://")), []).
Proof.
  split; [reflexivity|].
  apply (proj1 (proj1 (url_endpoints_validation Samples.world (lit " ftp://example.com")
                         None []) eq_refl)).
Defined.

(** Claim C6 fails as stated: [/scrape_url] scrapes an [ftp://] URL and
    answers, and [/scrape_to_csv] saves a 15-character page. *)
Lemma url_endpoints_counterexample :
  (exists v tr,
     Api.scrape_url_endpoint Samples.world (lit "ftp://example.com") [] = (inr v, tr) /\
     In (Scrape (lit "ftp://example.com")) tr) /\
  (List.length (strip (lit "fifteen chars!!")) < 20 /\
   Samples.world.(scrape_plain_text) (lit "https://example.com") = inr (lit "fifteen chars!!") /\
   exists v tr,
     Api.scrape_to_csv Samples.world (lit "https://example.com") [] = (inr v, tr)).
Proof.
  split.
  - do 2 eexists. split; [reflexivity|]. simpl. left. reflexivity.
  - split; [vm_compute; lia|]. split; [reflexivity|]. do 2 eexists. cbv. reflexivity.
Qed.

(** ** Keyword scanners *)

Lemma eqb_eq (a b : pystr) : eqb a b = true <-> a = b.
Proof.
  revert b. induction a as [|x a IH]; intros [|y b]; simpl;
    try (split; intros H; discriminate H || reflexivity).
  rewrite andb_true_iff, N.eqb_eq, IH.
  split; [intros [-> ->]; reflexivity | intros H; injection H; auto].
Qed.

Lemma ltb_irrefl (a : pystr) : ltb a a = false.
Proof.
  induction a as [|x a IH]; simpl; [reflexivity|].
  rewrite N.ltb_irrefl, N.eqb_refl, IH. reflexivity.
Qed.

Lemma ltb_trans (a b c : pystr) : ltb a b = true -> ltb b c = true -> ltb a c = true.
Proof.
  revert b c. induction a as [|x a IH]; intros [|y b] [|z c]; simpl; try discriminate;
    try reflexivity.
  rewrite !orb_true_iff, !andb_true_iff, !N.ltb_lt, !N.eqb_eq.
  intros [H1|[-> H1]] [H2|[-> H2]]; [left; lia|left; lia|left; lia|].
  right. split; [reflexivity|]. eapply IH; eassumption.
Qed.

Lemma ltb_total (a b : pystr) : a <> b -> ltb b a = false -> ltb a b = true.
Proof.
  revert b. induction a as [|x a IH]; intros [|y b] Hne; simpl; try congruence;
    try discriminate; try reflexivity.
  rewrite !orb_false_iff, !orb_true_iff, !andb_false_iff, !andb_true_iff,
    !N.ltb_lt, N.ltb_ge, !N.eqb_eq, N.eqb_neq.
  intros [Hyx Hc]. destruct (N.eq_dec x y) as [<-|Hxy]; [|left; lia].
  right. split; [reflexivity|]. apply IH; [congruence|].
  destruct Hc as [Hc|Hc]; [congruence|exact Hc].
Qed.

Lemma insert_str_perm (x : pystr) (l : list pystr) :
  Permutation (Extract.insert_str x l) (x :: l).
Proof.
  induction l as [|y r IH]; simpl; [reflexivity|].
  destruct (ltb y x); [|reflexivity].
  rewrite IH. apply perm_swap.
Qed.

Lemma insert_str_sorted (x : pystr) (l : list pystr) :
  StronglySorted str_lt l -> ~ In x l -> StronglySorted str_lt (Extract.insert_str x l).
Proof.
  induction l as [|y r IH]; intros Hs Hn; simpl.
  - repeat constructor.
  - inversion Hs as [|? ? Hr Hf]; subst.
    destruct (ltb y x) eqn:Hyx.
    + constructor; [apply IH; [exact Hr | intros H; apply Hn; right; exact H]|].
      apply (Permutation_Forall (Permutation_sym (insert_str_perm x r))).
      constructor; [exact Hyx | exact Hf].
    + assert (Hxy : str_lt x y).
      { apply ltb_total; [intros ->; apply Hn; left; reflexivity | exact Hyx]. }
      constructor; [exact Hs|]. constructor; [exact Hxy|].
      eapply Forall_impl; [|exact Hf]. intros z Hz. eapply ltb_trans; eassumption.
Qed.

Lemma py_sorted_spec (l : list pystr) :
  NoDup l ->
  Permutation (Extract.py_sorted l) l /\ StronglySorted str_lt (Extract.py_sorted l).
Proof.
  induction l as [|x r IH]; intros Hd; simpl; [split; constructor|].
  inversion Hd as [|? ? Hx Hr]; subst. destruct (IH Hr) as [Hp Hs].
  split.
  - rewrite insert_str_perm. apply perm_skip. exact Hp.
  - apply insert_str_sorted; [exact Hs|].
    intros H. apply Hx. apply (Permutation_in _ Hp). exact H.
Qed.

Lemma sorted_set_scan (t : pystr -> bool) (l : list pystr) :
  let r := Extract.py_sorted (Extract.py_set (filter t l)) in
  NoDup r /\ StronglySorted str_lt r /\ (forall k, In k r <-> In k l /\ t k = true).
Proof.
  cbv zeta. unfold Extract.py_set.
  destruct (py_sorted_spec _ (NoDup_nodup (list_eq_dec N.eq_dec) (filter t l)))
    as [Hp Hs].
  split; [|split; [exact Hs|]].
  - apply (Permutation_NoDup (Permutation_sym Hp)). apply NoDup_nodup.
  - intros k. split.
    + intros H. apply (Permutation_in _ Hp), nodup_In, filter_In in H. exact H.
    + intros H. apply (Permutation_in _ (Permutation_sym Hp)), nodup_In, filter_In.
      exact H.
Qed.

Lemma LANGS_NoDup : NoDup Extract.LANGS.
Proof.
  vm_compute. repeat constructor; simpl; intuition discriminate.
Qed.

(** Claim C9 (as amended): [find_skills] and [find_technologies] return
    the keywords of their fixed lists that occur in [text.lower()], with
    no duplicates and in increasing [str] order; [find_languages]
    returns the languages of its fixed list that occur in
    [text.lower()], with no duplicates, in the ORDER OF THE LIST.  All
    three are total. *)
Theorem keyword_scanners_spec (text : pystr) :
  (NoDup (Extract.find_skills text) /\ StronglySorted str_lt (Extract.find_skills text) /\
   forall k, In k (Extract.find_skills text) <->
             In k Extract.SKILL_KEYWORDS /\ contains k (lower text) = true) /\
  (NoDup (Extract.find_technologies text) /\
   StronglySorted str_lt (Extract.find_technologies text) /\
   forall k, In k (Extract.find_technologies text) <->
             In k Extract.TECH /\ contains k (lower text) = true) /\
  (Extract.find_languages text = filter (fun l => contains l (lower text)) Extract.LANGS /\
   NoDup (Extract.find_languages text) /\
   forall k, In k (Extract.find_languages text) <->
             In k Extract.LANGS /\ contains k (lower text) = true).
Proof.
  split; [|split].
  - apply (sorted_set_scan (fun kw => contains kw (lower text))).
  - apply (sorted_set_scan (fun kw => contains kw (lower text))).
  - unfold Extract.find_languages, Extract.scan. split; [reflexivity|]. split.
    + apply NoDup_filter. exact LANGS_NoDup.
    + intros k. cbv zeta. rewrite filter_In. tauto.
Qed.

Lemma keyword_scanners_spec_witness :
  In (lit "english") (Extract.find_languages (lit "I speak English")).
Proof.
  destruct (keyword_scanners_spec (lit "I speak English")) as [_ [_ [_ [_ H]]]].
  apply H. split; [vm_compute; left; reflexivity|vm_compute; reflexivity].
Defined.

(** Claim C9 fails as stated: the languages come in the order of the
    fixed list, not in the order they are first seen in the text. *)
Lemma find_languages_counterexample :
  Extract.find_languages (lit "German and English") = [lit "english"; lit "german"] /\
  find (lit "german") (lower (lit "German and English")) = Some 0 /\
  find (lit "english") (lower (lit "German and English")) = Some 11.
Proof. vm_compute. repeat split. Qed.

(** ** extract_keywords_simple: the regex scan *)

Lemma take_letters_spec (s : pystr) :
  let (w, rest) := Keywords.take_letters s in
  s = w ++ rest /\ Forall (fun c => AITools.is_ascii_letter c = true) w /\ ends_run rest.
Proof.
  induction s as [|c r IH]; simpl; [repeat constructor|].
  destruct (AITools.is_ascii_letter c) eqn:Hc.
  - destruct (Keywords.take_letters r) as [w rest].
    destruct IH as [-> [Hw He]]. split; [reflexivity|]. split; [constructor; assumption|].
    exact He.
  - split; [reflexivity|]. split; [constructor|]. exact Hc.
Qed.

Lemma runs_aux_letters (w rest cur : pystr) :
  Forall (fun c => AITools.is_ascii_letter c = true) w ->
  KeywordsSpec.runs_aux (w ++ rest) cur = KeywordsSpec.runs_aux rest (rev w ++ cur).
Proof.
  intros Hw. revert cur. induction Hw as [|c w Hc Hw IH]; intros cur; [reflexivity|].
  simpl. rewrite Hc. rewrite IH, <- app_assoc. reflexivity.
Qed.

Lemma runs_aux_short (rest cur : pystr) :
  List.length cur < 3 -> ends_run rest ->
  KeywordsSpec.runs_aux rest cur =
    match rest with [] => [] | _ :: q => KeywordsSpec.runs_aux q [] end.
Proof.
  intros Hl He.
  destruct rest as [|d q]; simpl; unfold KeywordsSpec.emit_run.
  - destruct (Nat.leb_spec 3 (List.length cur)); [lia|reflexivity].
  - simpl in He. rewrite He.
    destruct (Nat.leb_spec 3 (List.length cur)); [lia|reflexivity].
Qed.

Lemma findall_fuel_nil (f : nat) : Keywords.findall_fuel f [] = [].
Proof. destruct f; reflexivity. Qed.

Lemma findall_fuel_cons (f : nat) (c : N) (r : pystr) :
  Keywords.findall_fuel (S f) (c :: r) =
    let (w, rest) := Keywords.take_letters (c :: r) in
    if (3 <=? List.length w)%nat then w :: Keywords.findall_fuel f rest
    else Keywords.findall_fuel f r.
Proof. reflexivity. Qed.

Lemma findall_fuel_runs (f : nat) :
  forall g s, g <= f -> List.length s <= g ->
  Keywords.findall_fuel g s = KeywordsSpec.runs_aux s [].
Proof.
  induction f as [|f IH]; intros g s Hg Hs.
  - assert (g = 0) by lia. subst. destruct s; [reflexivity|simpl in Hs; lia].
  - destruct (Nat.leb_spec g f) as [Hgf|Hgf]; [apply IH; assumption|].
    assert (g = S f) by lia. subst g. clear Hg Hgf.
    destruct s as [|c r]; [reflexivity|].
    pose proof (take_letters_spec (c :: r)) as Ht.
    rewrite findall_fuel_cons.
    destruct (Keywords.take_letters (c :: r)) as [w rest] eqn:Htl.
    destruct Ht as [Hs' [Hw He]].
    destruct (Nat.leb_spec 3 (List.length w)) as [H3|H3].
    + assert (Hlen : List.length (c :: r) = List.length w + List.length rest)
        by (rewrite Hs', length_app; reflexivity).
      rewrite Hs', runs_aux_letters by exact Hw. rewrite app_nil_r.
      destruct rest as [|d q].
      * rewrite findall_fuel_nil. simpl.
        unfold KeywordsSpec.emit_run. rewrite length_rev.
        destruct (Nat.leb_spec 3 (List.length w)); [|lia].
        rewrite rev_involutive. reflexivity.
      * simpl in He. simpl. rewrite He.
        unfold KeywordsSpec.emit_run. rewrite length_rev.
        destruct (Nat.leb_spec 3 (List.length w)); [|lia].
        rewrite rev_involutive. simpl. f_equal.
        assert (Hf : 1 <= f) by (simpl in Hlen, Hs; lia).
        destruct f as [|f']; [lia|].
        rewrite findall_fuel_cons. simpl Keywords.take_letters. rewrite He.
        apply IH; simpl in Hlen, Hs; lia.
    + rewrite (IH f r) by (simpl in Hs; lia).
      destruct w as [|c' w'].
      * simpl in Hs'. subst rest. simpl in He. simpl. rewrite He. reflexivity.
      * simpl in Hs'. injection Hs' as <- Hr. inversion Hw as [|? ? Hc Hw']; subst.
        simpl. rewrite Hc.
        rewrite !runs_aux_letters by exact Hw'.
        simpl in H3. rewrite !runs_aux_short; try assumption; [reflexivity| |];
          rewrite ?length_app, ?length_rev; simpl; lia.
Qed.

Lemma findall_alpha3_runs (s : pystr) :
  Keywords.findall_alpha3 s = KeywordsSpec.alpha_runs s.
Proof. apply (findall_fuel_runs (List.length s)); lia. Qed.

(** ** extract_keywords_simple: Counter and most_common *)

Section Ranking.

Import KeywordsSpec.

Lemma eqb_refl (a : pystr) : eqb a a = true.
Proof. apply eqb_eq. reflexivity. Qed.

Lemma eqb_sym (a b : pystr) : eqb a b = eqb b a.
Proof.
  destruct (eqb a b) eqn:E1, (eqb b a) eqn:E2; try reflexivity.
  - apply eqb_eq in E1. subst. rewrite eqb_refl in E2. discriminate.
  - apply eqb_eq in E2. subst. rewrite eqb_refl in E1. discriminate.
Qed.

Lemma eqb_false (a b : pystr) : a <> b -> eqb a b = false.
Proof. intros H. destruct (eqb a b) eqn:E; [apply eqb_eq in E; contradiction|reflexivity]. Qed.

Lemma count_of_app_single (k w : pystr) (P : list pystr) :
  count_of k (P ++ [w]) = count_of k P + (if eqb w k then 1 else 0).
Proof. induction P as [|x r IH]; simpl; [lia|]. rewrite IH. lia. Qed.

Lemma count_of_notin (k : pystr) (P : list pystr) : ~ In k P -> count_of k P = 0.
Proof.
  induction P as [|x r IH]; simpl; intros H; [reflexivity|].
  rewrite eqb_false by (intros ->; apply H; left; reflexivity).
  apply IH. intros Hr. apply H. right. exact Hr.
Qed.

Lemma first_index_app_in (k w : pystr) (P : list pystr) :
  In k P -> first_index k (P ++ [w]) = first_index k P.
Proof.
  induction P as [|x r IH]; simpl; [contradiction|]. intros Hk.
  destruct (eqb x k) eqn:E; [reflexivity|]. f_equal. apply IH.
  destruct Hk as [->|Hk]; [rewrite eqb_refl in E; discriminate|exact Hk].
Qed.

Lemma first_index_lt (k : pystr) (P : list pystr) : In k P -> first_index k P < List.length P.
Proof.
  induction P as [|x r IH]; simpl; [contradiction|]. intros Hk.
  destruct (eqb x k) eqn:E; [lia|].
  destruct Hk as [->|Hk]; [rewrite eqb_refl in E; discriminate|]. specialize (IH Hk). lia.
Qed.

Lemma first_index_new (w : pystr) (P : list pystr) :
  ~ In w P -> first_index w (P ++ [w]) = List.length P.
Proof.
  induction P as [|x r IH]; simpl; intros H; [rewrite eqb_refl; reflexivity|].
  rewrite eqb_false by (intros ->; apply H; left; reflexivity).
  f_equal. apply IH. intros Hr. apply H. right. exact Hr.
Qed.

Lemma SS_weaken {A} (R R' : A -> A -> Prop) (l : list A) :
  (forall x y, In x l -> In y l -> R x y -> R' x y) ->
  StronglySorted R l -> StronglySorted R' l.
Proof.
  induction l as [|a r IH]; intros Himp Hs; [constructor|].
  inversion Hs as [|? ? Hr Hf]; subst. constructor.
  - apply IH; [intros x y Hx Hy; apply Himp; right; assumption|exact Hr].
  - rewrite Forall_forall in *. intros y Hy. apply Himp; [left; reflexivity|right; exact Hy|].
    apply Hf. exact Hy.
Qed.

Lemma SS_map {A B} (f : A -> B) (R : A -> A -> Prop) (R' : B -> B -> Prop) (l : list A) :
  (forall x y, In x l -> In y l -> R x y -> R' (f x) (f y)) ->
  StronglySorted R l -> StronglySorted R' (map f l).
Proof.
  induction l as [|a r IH]; intros Himp Hs; simpl; [constructor|].
  inversion Hs as [|? ? Hr Hf]; subst. constructor.
  - apply IH; [intros x y Hx Hy; apply Himp; right; assumption|exact Hr].
  - rewrite Forall_forall in *. intros y Hy. apply in_map_iff in Hy as [z [<- Hz]].
    apply Himp; [left; reflexivity|right; exact Hz|]. apply Hf. exact Hz.
Qed.

Lemma SS_app_single {A} (R : A -> A -> Prop) (l : list A) (x : A) :
  StronglySorted R l -> Forall (fun y => R y x) l -> StronglySorted R (l ++ [x]).
Proof.
  induction l as [|a r IH]; intros Hs Hf; simpl; [repeat constructor|].
  inversion Hs as [|? ? Hr Hfa]; subst. inversion Hf as [|? ? Hax Hfr]; subst.
  constructor; [apply IH; assumption|]. apply Forall_app. split; [exact Hfa|].
  constructor; [exact Hax|constructor].
Qed.

Lemma SS_unique {A} (R : A -> A -> Prop) (l1 l2 : list A) :
  (forall x y, R x y -> R y x -> False) ->
  NoDup l1 -> NoDup l2 -> (forall x, In x l1 <-> In x l2) ->
  StronglySorted R l1 -> StronglySorted R l2 -> l1 = l2.
Proof.
  intros Hasym. revert l2. induction l1 as [|a r1 IH]; intros l2 Hd1 Hd2 Hin Hs1 Hs2.
  - destruct l2 as [|b r2]; [reflexivity|]. exfalso. apply (proj2 (Hin b)). left. reflexivity.
  - destruct l2 as [|b r2]; [exfalso; apply (proj1 (Hin a)); left; reflexivity|].
    inversion Hd1 as [|? ? Ha1 Hd1']; subst. inversion Hd2 as [|? ? Hb2 Hd2']; subst.
    inversion Hs1 as [|? ? Hs1' Hf1]; subst. inversion Hs2 as [|? ? Hs2' Hf2]; subst.
    assert (Hab : a = b).
    { destruct (proj1 (Hin a) (or_introl eq_refl)) as [Hab|Har2]; [symmetry; exact Hab|].
      destruct (proj2 (Hin b) (or_introl eq_refl)) as [Hba|Hbr1]; [exact Hba|].
      exfalso. rewrite Forall_forall in Hf1, Hf2.
      exact (Hasym a b (Hf1 b Hbr1) (Hf2 a Har2)). }
    subst b. f_equal. apply IH; try assumption.
    intros x. split; intros Hx.
    + destruct (proj1 (Hin x) (or_intror Hx)) as [->|H]; [contradiction|exact H].
    + destruct (proj2 (Hin x) (or_intror Hx)) as [->|H]; [contradiction|exact H].
Qed.

Lemma counter_add_in (w : pystr) (f : pystr -> nat) (K : list pystr) :
  NoDup K -> In w K ->
  Keywords.counter_add w (map (fun k => (k, f k)) K) =
    map (fun k => (k, if eqb w k then S (f k) else f k)) K.
Proof.
  induction K as [|x r IH]; intros Hd Hin; [contradiction|].
  inversion Hd as [|? ? Hx Hr]; subst. simpl.
  destruct (eqb x w) eqn:E.
  - apply eqb_eq in E. subst x. rewrite eqb_refl. f_equal.
    apply map_ext_in. intros k Hk.
    rewrite eqb_false by (intros ->; contradiction). reflexivity.
  - destruct Hin as [->|Hin]; [rewrite eqb_refl in E; discriminate|].
    rewrite eqb_sym, E. f_equal. apply IH; assumption.
Qed.

Lemma counter_add_notin (w : pystr) (f : pystr -> nat) (K : list pystr) :
  ~ In w K ->
  Keywords.counter_add w (map (fun k => (k, f k)) K) = map (fun k => (k, f k)) K ++ [(w, 1)].
Proof.
  induction K as [|x r IH]; intros Hn; simpl; [reflexivity|].
  rewrite eqb_false by (intros ->; apply Hn; left; reflexivity).
  f_equal. apply IH. intros H. apply Hn. right. exact H.
Qed.

Lemma counter_step (P K : list pystr) (w : pystr) :
  counter_inv P K ->
  exists K', counter_inv (P ++ [w]) K' /\
    Keywords.counter_add w (map (fun k => (k, count_of k P)) K) =
      map (fun k => (k, count_of k (P ++ [w]))) K'.
Proof.
  intros [Hd [Hin Hs]].
  destruct (in_dec (list_eq_dec N.eq_dec) w P) as [Hw|Hw].
  - exists K. split; [split; [exact Hd|split]|].
    + intros k. rewrite Hin, in_app_iff. simpl. split; [intros H; left; exact H|intros [H|[<-|[]]]; assumption].
    + apply (SS_weaken (fun a b => first_index a P < first_index b P)); [|exact Hs]. intros x y Hx Hy Hxy.
      rewrite !first_index_app_in by (apply Hin; assumption). exact Hxy.
    + rewrite counter_add_in by (try apply Hin; assumption).
      apply map_ext. intros k. rewrite count_of_app_single.
      destruct (eqb w k); f_equal; lia.
  - assert (HwK : ~ In w K) by (rewrite Hin; exact Hw).
    exists (K ++ [w]). split; [split; [|split]|].
    + apply (Permutation_NoDup (Permutation_cons_append K w)). constructor; assumption.
    + intros k. rewrite !in_app_iff, Hin. reflexivity.
    + apply SS_app_single.
      * apply (SS_weaken (fun a b => first_index a P < first_index b P)); [|exact Hs]. intros x y Hx Hy Hxy.
        rewrite !first_index_app_in by (apply Hin; assumption). exact Hxy.
      * apply Forall_forall. intros y Hy.
        rewrite first_index_app_in by (apply Hin; exact Hy).
        rewrite first_index_new by exact Hw. apply first_index_lt, Hin, Hy.
    + rewrite counter_add_notin by exact HwK. rewrite map_app. simpl. f_equal.
      * apply map_ext_in. intros k Hk. rewrite count_of_app_single.
        rewrite eqb_false by (intros ->; contradiction). f_equal. lia.
      * rewrite count_of_app_single, eqb_refl, count_of_notin by exact Hw. reflexivity.
Qed.

Lemma counter_fold (L : list pystr) : forall P K,
  counter_inv P K ->
  exists K', counter_inv (P ++ L) K' /\
    fold_left (fun c w => Keywords.counter_add w c) L (map (fun k => (k, count_of k P)) K) =
      map (fun k => (k, count_of k (P ++ L))) K'.
Proof.
  induction L as [|w L IH]; intros P K HI.
  - exists K. rewrite app_nil_r. split; [exact HI|reflexivity].
  - simpl. destruct (counter_step P K w HI) as [K1 [HI1 Heq1]]. rewrite Heq1.
    destruct (IH (P ++ [w]) K1 HI1) as [K2 [HI2 Heq2]].
    exists K2. rewrite <- app_assoc in HI2, Heq2. simpl in HI2, Heq2.
    split; [exact HI2|exact Heq2].
Qed.

Lemma Counter_spec (L : list pystr) :
  exists K, counter_inv L K /\
    Keywords.Counter L = map (fun k => (k, count_of k L)) K.
Proof.
  destruct (counter_fold L [] []) as [K [HI Heq]].
  - split; [constructor|]. split; [intros k; reflexivity|constructor].
  - exists K. exact (conj HI Heq).
Qed.

Lemma insert_desc_perm (x : pystr * nat) (l : list (pystr * nat)) :
  Permutation (Keywords.insert_desc x l) (x :: l).
Proof.
  induction l as [|y r IH]; simpl; [reflexivity|].
  destruct (snd x <? snd y)%nat; [|reflexivity].
  rewrite IH. apply perm_swap.
Qed.

Lemma insert_desc_sorted (Q : pystr * nat -> pystr * nat -> Prop) x S :
  StronglySorted (by_count Q) S -> Forall (Q x) S ->
  StronglySorted (by_count Q) (Keywords.insert_desc x S).
Proof.
  induction S as [|y r IH]; intros Hs Hq; simpl; [repeat constructor|].
  inversion Hs as [|? ? Hr Hf]; subst. inversion Hq as [|? ? Hxy Hqr]; subst.
  destruct (Nat.ltb_spec (snd x) (snd y)) as [Hlt|Hge].
  - constructor; [apply IH; assumption|].
    apply (Permutation_Forall (Permutation_sym (insert_desc_perm x r))).
    constructor; [left; exact Hlt|exact Hf].
  - constructor; [exact Hs|]. constructor.
    + unfold by_count. destruct (Nat.eq_dec (snd x) (snd y)); [right; auto|left; lia].
    + rewrite Forall_forall in *. intros z Hz. specialize (Hf z Hz). specialize (Hqr z Hz).
      unfold by_count in *. destruct (Nat.eq_dec (snd x) (snd z)); [right; auto|].
      left. destruct Hf as [Hf|[Hf _]]; lia.
Qed.

Lemma sort_desc_spec (Q : pystr * nat -> pystr * nat -> Prop) (l : list (pystr * nat)) :
  StronglySorted Q l ->
  Permutation (Keywords.sort_desc l) l /\ StronglySorted (by_count Q) (Keywords.sort_desc l).
Proof.
  induction l as [|x r IH]; intros Hs; simpl; [split; constructor|].
  inversion Hs as [|? ? Hr Hf]; subst. destruct (IH Hr) as [Hp Hsr].
  split.
  - rewrite insert_desc_perm. apply perm_skip. exact Hp.
  - apply insert_desc_sorted; [exact Hsr|].
    apply (Permutation_Forall (Permutation_sym Hp)). exact Hf.
Qed.

Lemma ranks_before_asym (L : list pystr) (a b : pystr) :
  ranks_before L a b -> ranks_before L b a -> False.
Proof. unfold ranks_before. lia. Qed.

End Ranking.

(** C8: [extract_keywords_simple text top_n] lowercases [text], takes the
    maximal runs of ASCII letters of length at least 3, drops the stopwords
    ([KeywordsSpec.tokens]), and returns the first [top_n] entries of the
    ranking [R] of the distinct tokens by decreasing frequency, ties broken
    by first occurrence ([KeywordsSpec.ranks_before]); this ranking is the
    only duplicate-free ordering of the tokens sorted by that relation.  The
    embedding is a function of [text] and [top_n], so two calls give the
    same ordered list.  A negative [top_n] gives the empty list, as
    [heapq.nlargest] does. *)
Theorem extract_keywords_spec (text : pystr) (top_n : Z) :
  let L := KeywordsSpec.tokens text in
  exists R,
    Keywords.extract_keywords_simple text top_n = firstn (Z.to_nat top_n) R /\
    NoDup R /\ (forall w, In w R <-> In w L) /\
    StronglySorted (KeywordsSpec.ranks_before L) R /\
    (forall R', NoDup R' -> (forall w, In w R' <-> In w L) ->
       StronglySorted (KeywordsSpec.ranks_before L) R' -> R' = R).
Proof.
  cbv zeta. unfold Keywords.extract_keywords_simple, Keywords.most_common.
  rewrite findall_alpha3_runs.
  change (filter (fun t => negb (existsb (eqb t) Keywords.stopwords))
            (KeywordsSpec.alpha_runs (lower text))) with (KeywordsSpec.tokens text).
  set (L := KeywordsSpec.tokens text).
  destruct (Counter_spec L) as [K [[Hd [Hin Hs]] HC]]. rewrite HC.
  set (E := map (fun k => (k, KeywordsSpec.count_of k L)) K).
  set (Q := fun x y : pystr * nat =>
              KeywordsSpec.first_index (fst x) L < KeywordsSpec.first_index (fst y) L).
  assert (HsE : StronglySorted Q E).
  { apply (SS_map _ (fun a b => KeywordsSpec.first_index a L < KeywordsSpec.first_index b L));
      [|exact Hs].
    intros x y _ _ Hxy. exact Hxy. }
  destruct (sort_desc_spec Q E HsE) as [Hp Hss].
  assert (HK : map fst E = K).
  { unfold E. rewrite map_map. apply map_id. }
  assert (HpK : Permutation (map fst (Keywords.sort_desc E)) K).
  { rewrite <- HK. apply Permutation_map. exact Hp. }
  assert (HinR : forall w, In w (map fst (Keywords.sort_desc E)) <-> In w L).
  { intros w. rewrite <- Hin. split; apply Permutation_in; [exact HpK|symmetry; exact HpK]. }
  assert (HsR : StronglySorted (KeywordsSpec.ranks_before L) (map fst (Keywords.sort_desc E))).
  { apply (SS_map _ (by_count Q)); [|exact Hss].
    intros x y Hx Hy Hxy.
    apply (Permutation_in _ Hp) in Hx, Hy. unfold E in Hx, Hy.
    apply in_map_iff in Hx as [kx [<- _]]. apply in_map_iff in Hy as [ky [<- _]].
    unfold by_count, Q, KeywordsSpec.ranks_before in *. simpl in *. lia. }
  exists (map fst (Keywords.sort_desc E)).
  split; [rewrite firstn_map; reflexivity|].
  split; [apply (Permutation_NoDup (Permutation_sym HpK)); exact Hd|].
  split; [exact HinR|]. split; [exact HsR|].
  intros R' Hd' Hin' Hs'. apply (SS_unique (KeywordsSpec.ranks_before L)); try assumption.
  - apply ranks_before_asym.
  - apply (Permutation_NoDup (Permutation_sym HpK)). exact Hd.
  - intros w. rewrite Hin', HinR. reflexivity.
Qed.

Lemma extract_keywords_spec_witness :
  Keywords.extract_keywords_simple (lit "Data rocq DATA and code, rocq data") 2 =
    [lit "data"; lit "rocq"] /\
  let L := KeywordsSpec.tokens (lit "Data rocq DATA and code, rocq data") in
  exists R,
    Keywords.extract_keywords_simple (lit "Data rocq DATA and code, rocq data") 2 =
      firstn (Z.to_nat 2) R /\
    NoDup R /\ (forall w, In w R <-> In w L) /\
    StronglySorted (KeywordsSpec.ranks_before L) R /\
    (forall R', NoDup R' -> (forall w, In w R' <-> In w L) ->
       StronglySorted (KeywordsSpec.ranks_before L) R' -> R' = R).
Proof.
  split; [vm_compute; reflexivity|].
  exact (extract_keywords_spec (lit "Data rocq DATA and code, rocq data") 2).
Defined.

(* ================================================================= *)
(** * Further properties of the code *)

(** ** Whitespace normalisation *)

Lemma lstrip_nows (x : pystr) : Forall (fun c => isspace c = false) x -> lstrip x = x.
Proof. intros H. destruct H as [|c r Hc _]; simpl; [reflexivity|]. rewrite Hc. reflexivity. Qed.

Lemma rstrip_nows (x : pystr) : Forall (fun c => isspace c = false) x -> rstrip x = x.
Proof.
  intros H. unfold rstrip. rewrite lstrip_nows by (apply Forall_rev; exact H).
  apply rev_involutive.
Qed.

Lemma lstrip_app (x y : pystr) :
  lstrip (x ++ y) = match lstrip x with [] => lstrip y | l => l ++ y end.
Proof.
  induction x as [|c r IH]; simpl; [reflexivity|].
  destruct (isspace c); [exact IH|reflexivity].
Qed.

Lemma rstrip_app (x y : pystr) :
  rstrip (x ++ y) = match rstrip y with [] => rstrip x | l => x ++ l end.
Proof.
  unfold rstrip. rewrite rev_app_distr, lstrip_app.
  destruct (lstrip (rev y)) as [|c l] eqn:E; simpl; [reflexivity|].
  destruct (rev l ++ [c]) as [|d m] eqn:Er.
  - apply (f_equal (@List.length _)) in Er. rewrite length_app in Er. simpl in Er. lia.
  - rewrite rev_app_distr, rev_involutive, <- app_assoc, Er. reflexivity.
Qed.

Lemma rstrip_space : rstrip [space] = [].
Proof. reflexivity. Qed.

Lemma split_aux_words (s cur : pystr) :
  Forall (fun c => isspace c = false) cur -> Forall word (split_aux s cur).
Proof.
  revert cur. induction s as [|c r IH]; intros cur Hcur; simpl.
  - destruct cur as [|d m]; constructor; [|constructor].
    split; [intros H; apply (f_equal (@List.length _)) in H;
            rewrite length_rev in H; discriminate|apply Forall_rev; exact Hcur].
  - destruct (isspace c) eqn:Hc.
    + destruct cur as [|d m]; [apply IH; constructor|].
      constructor; [|apply IH; constructor].
      split; [intros H; apply (f_equal (@List.length _)) in H;
              rewrite length_rev in H; discriminate|apply Forall_rev; exact Hcur].
    + apply IH. constructor; assumption.
Qed.

Lemma split_words (s : pystr) : Forall word (split s).
Proof. apply split_aux_words. constructor. Qed.

Lemma join_words_nil (ws : list pystr) : Forall word ws -> join [space] ws = [] -> ws = [].
Proof.
  intros H Hj. destruct H as [|w r [Hw _] _]; [reflexivity|].
  exfalso. destruct r as [|w' r]; simpl in Hj; [contradiction|].
  apply app_eq_nil in Hj. destruct Hj; contradiction.
Qed.

Lemma collapse_ws_only_space (s : pystr) (b : bool) :
  Forall (fun c => isspace c = true -> c = space) (JobAnalyzer.collapse_ws s b).
Proof.
  revert b. induction s as [|c r IH]; intros b; simpl; [constructor|].
  destruct (isspace c) eqn:Hc.
  - destruct b; [apply IH|]. constructor; [reflexivity|apply IH].
  - constructor; [rewrite Hc; discriminate|apply IH].
Qed.

Lemma lstrip_collapse_true (s : pystr) :
  lstrip (JobAnalyzer.collapse_ws s true) = JobAnalyzer.collapse_ws s true.
Proof.
  induction s as [|c r IH]; simpl; [reflexivity|].
  destruct (isspace c) eqn:Hc; [exact IH|]. simpl. rewrite Hc. reflexivity.
Qed.

Lemma lstrip_collapse (s : pystr) :
  lstrip (JobAnalyzer.collapse_ws s false) = JobAnalyzer.collapse_ws s true.
Proof.
  destruct s as [|c r]; simpl; [reflexivity|].
  destruct (isspace c) eqn:Hc.
  - change (lstrip (space :: JobAnalyzer.collapse_ws r true) =
            JobAnalyzer.collapse_ws r true).
    simpl. apply lstrip_collapse_true.
  - simpl. rewrite Hc. reflexivity.
Qed.

Lemma rstrip_collapse (s : pystr) : forall cur,
  Forall (fun c => isspace c = false) cur ->
  rstrip (rev cur ++ JobAnalyzer.collapse_ws s (match cur with [] => true | _ => false end)) =
    join [space] (split_aux s cur).
Proof.
  induction s as [|c r IH]; intros cur Hcur; simpl.
  - rewrite app_nil_r, rstrip_nows by (apply Forall_rev; exact Hcur).
    destruct cur; reflexivity.
  - destruct (isspace c) eqn:Hc.
    + destruct cur as [|d m].
      * exact (IH [] (Forall_nil _)).
      * specialize (IH [] (Forall_nil _)). simpl in IH.
        change (space :: JobAnalyzer.collapse_ws r true)
          with ([space] ++ JobAnalyzer.collapse_ws r true).
        rewrite rstrip_app, (rstrip_app [space]), IH, rstrip_space.
        pose proof (split_aux_words r [] (Forall_nil _)) as Hw.
        destruct (split_aux r []) as [|w ws] eqn:Es.
        -- simpl. rewrite rstrip_nows; [reflexivity|]. change (rev m ++ [d]) with (rev (d :: m)). apply Forall_rev; exact Hcur.
        -- destruct (join [space] (w :: ws)) as [|e l] eqn:Ej.
           ++ apply join_words_nil in Ej; [discriminate|exact Hw].
           ++ change (join [space] (rev (d :: m) :: w :: ws)) with (rev (d :: m) ++ [space] ++ join [space] (w :: ws)). rewrite Ej. reflexivity.
    + pose proof (IH (c :: cur) ltac:(constructor; assumption)) as H.
      cbn [rev] in H. rewrite <- app_assoc in H. exact H.
Qed.

Lemma replace_char_id (a b : N) (s : pystr) :
  Forall (fun c => c <> a) s -> JobAnalyzer.replace_char a b s = s.
Proof.
  intros H. induction H as [|c r Hc _ IH]; simpl; [reflexivity|].
  rewrite IH. destruct (N.eqb_spec c a); [contradiction|reflexivity].
Qed.

Lemma collapse_ws_no_tab_nl (s : pystr) (a : N) :
  isspace a = true -> a <> space -> JobAnalyzer.replace_char a space (JobAnalyzer.collapse_ws s false) =
    JobAnalyzer.collapse_ws s false.
Proof.
  intros Ha Hne. apply replace_char_id.
  apply (Forall_impl _ (P := fun c => isspace c = true -> c = space));
    [|apply collapse_ws_only_space].
  intros c Hc ->. apply Hne, Hc, Ha.
Qed.

Lemma split_aux_app_word (w s cur : pystr) :
  Forall (fun c => isspace c = false) w -> split_aux (w ++ s) cur = split_aux s (rev w ++ cur).
Proof.
  intros H. revert cur. induction H as [|c w Hc _ IH]; intros cur; simpl; [reflexivity|].
  rewrite Hc, IH, <- app_assoc. reflexivity.
Qed.

Lemma split_join (ws : list pystr) : Forall word ws -> split (join [space] ws) = ws.
Proof.
  induction 1 as [|w r [Hw Hwf] Hr IH]; [reflexivity|].
  unfold split in *. destruct r as [|w' r].
  - change (join [space] [w]) with w. rewrite <- (app_nil_r w) at 1.
    rewrite split_aux_app_word by exact Hwf. rewrite app_nil_r. simpl. destruct (rev w) as [|d m] eqn:E.
    + apply (f_equal (@rev _)) in E. rewrite rev_involutive in E. contradiction.
    + rewrite <- E, rev_involutive. reflexivity.
  - change (join [space] (w :: w' :: r)) with (w ++ space :: join [space] (w' :: r)).
    rewrite split_aux_app_word by exact Hwf. rewrite app_nil_r.
    set (J := join [space] (w' :: r)) in *. simpl.
    destruct (rev w) as [|d m] eqn:E.
    + apply (f_equal (@rev _)) in E. rewrite rev_involutive in E. contradiction.
    + rewrite <- E, rev_involutive, IH. reflexivity.
Qed.

Lemma clean_job_text_eq (text : pystr) :
  JobAnalyzer.clean_job_text text = join [space] (split text).
Proof.
  unfold JobAnalyzer.clean_job_text.
  rewrite (collapse_ws_no_tab_nl text 9) by (reflexivity || discriminate).
  rewrite (collapse_ws_no_tab_nl text 10) by (reflexivity || discriminate).
  unfold strip. rewrite lstrip_collapse. exact (rstrip_collapse text [] (Forall_nil _)).
Qed.

Lemma clean_job_text_idem (text : pystr) :
  split (JobAnalyzer.clean_job_text text) = split text /\
  JobAnalyzer.clean_job_text (JobAnalyzer.clean_job_text text) = JobAnalyzer.clean_job_text text.
Proof.
  rewrite !clean_job_text_eq, split_join by apply split_words. split; reflexivity.
Qed.

(** [clean_job_text] is [" ".join(text.split())]: the words of the text
    separated by single spaces, nothing before or after. *)
Theorem clean_job_text_join_split (text : pystr) :
  JobAnalyzer.clean_job_text text = join [space] (split text).
Proof. exact (clean_job_text_eq text). Qed.

(** [clean_job_text] keeps the words of its input and is idempotent. *)
Theorem clean_job_text_words (text : pystr) :
  split (JobAnalyzer.clean_job_text text) = split text /\
  JobAnalyzer.clean_job_text (JobAnalyzer.clean_job_text text) = JobAnalyzer.clean_job_text text.
Proof. exact (clean_job_text_idem text). Qed.

(** [clean_name] returns the capitalized words of the line separated by
    single spaces: splitting the result gives back exactly those words,
    for a [capitalize] that maps a word to a word. *)
Theorem clean_name_words (capitalize : pystr -> pystr)
    (Hcap : forall w, word w -> word (capitalize w)) (line : pystr) :
  split (CleanNames.clean_name capitalize line) = map capitalize (split line).
Proof.
  unfold CleanNames.clean_name. rewrite split_strip. apply split_join.
  apply Forall_map. apply (Forall_impl _ Hcap). apply split_words.
Qed.

Lemma clean_name_words_witness :
  (forall w, word w -> word w) /\
  split (CleanNames.clean_name (fun w => w) (lit "  ada    lovelace ")) =
    [lit "ada"; lit "lovelace"].
Proof.
  split; [intros w Hw; exact Hw|].
  rewrite (clean_name_words (fun w => w) (fun w Hw => Hw)). vm_compute. reflexivity.
Defined.

(** ** Lines of the scraped text *)

Lemma split_on_aux_cons (sep : N) (s cur : pystr) : Api.split_on_aux sep s cur <> [].
Proof.
  revert cur. induction s as [|c r IH]; intros cur; simpl; [discriminate|].
  destruct (c =? sep)%N; [discriminate|apply IH].
Qed.

Lemma split_on_aux_spec (sep : N) (s : pystr) : forall cur,
  ~ In sep cur ->
  join [sep] (Api.split_on_aux sep s cur) = rev cur ++ s /\
  Forall (fun l => ~ In sep l) (Api.split_on_aux sep s cur).
Proof.
  induction s as [|c r IH]; intros cur Hcur; simpl.
  - rewrite app_nil_r. split; [reflexivity|].
    constructor; [rewrite <- in_rev; exact Hcur|constructor].
  - destruct (N.eqb_spec c sep) as [->|Hne].
    + destruct (IH [] (fun H => H)) as [Hj Hf]. split.
      * pose proof (split_on_aux_cons sep r []) as Hc.
        destruct (Api.split_on_aux sep r []) as [|p ps]; [contradiction|].
        change (rev cur ++ [sep] ++ join [sep] (p :: ps) = rev cur ++ sep :: r).
        rewrite Hj. reflexivity.
      * constructor; [rewrite <- in_rev; exact Hcur|exact Hf].
    + destruct (IH (c :: cur)) as [Hj Hf].
      { intros [H|H]; [congruence|contradiction]. }
      split; [rewrite Hj; simpl; rewrite <- app_assoc; reflexivity|exact Hf].
Qed.

(** [text.split("\n")] cuts [text] into line-break-free pieces that
    ["\n".join] puts back together. *)
Theorem split_on_newline_roundtrip (text : pystr) :
  join [10%N] (Api.split_on 10 text) = text /\
  Forall (fun l => ~ In 10%N l) (Api.split_on 10 text).
Proof. apply (split_on_aux_spec 10 text [] (fun H => H)). Qed.





Lemma strip_in (c : N) (t : pystr) : In c (strip t) -> In c t.
Proof.
  intros Hc. unfold strip, rstrip in Hc. rewrite <- in_rev in Hc.
  destruct (lstrip_decomp (rev (lstrip t))) as [w [Hw _]].
  assert (Hc1 : In c (rev (lstrip t))) by (rewrite Hw; apply in_app_iff; right; exact Hc).
  rewrite <- in_rev in Hc1. destruct (lstrip_decomp t) as [w' [Hw' _]].
  rewrite Hw'. apply in_app_iff. right. exact Hc1.
Qed.

Lemma lstrip_head (t : pystr) (d : N) (m : pystr) : lstrip t = d :: m -> isspace d = false.
Proof.
  induction t as [|x r IH]; simpl; [discriminate|].
  destruct (isspace x) eqn:Hx; [exact IH|]. intros H. inversion H. subst. exact Hx.
Qed.




(** ** Sentiment *)

Lemma guess_language_ascii (text : pystr) :
  forallb (fun ch => (ch <? 128)%N) text = true -> Sentiment.guess_language text = lit "en".
Proof.
  intros H. unfold Sentiment.guess_language.
  destruct (existsb (fun ch => (1536 <=? ch)%N && (ch <=? 1791)%N) text) eqn:E.
  - apply existsb_exists in E as [ch [Hin Hch]].
    rewrite forallb_forall in H. specialize (H ch Hin).
    apply andb_true_iff in Hch as [H1 _]. apply N.leb_le in H1. apply N.ltb_lt in H. lia.
  - rewrite H. reflexivity.
Qed.

(** [sentiment.analyze_sentiment] on a text of ASCII characters (at least
    3 once stripped) reports the language ["en"], never calls the
    translator, gives [translated_text = None] and runs the model on the
    first 512 characters of the text itself. *)
Theorem analyze_sentiment_ascii (E : World) (text : pystr) (tr : list event) :
  forallb (fun ch => (ch <? 128)%N) text = true ->
  3 <= List.length (strip text) ->
  Sentiment.analyze_sentiment E text tr =
    match E.(sentiment_en) (firstn 512 text) with
    | None => (inl (ExternalError (lit "sentiment model")), tr)
    | Some (label, score) =>
        (inr (VDict [(lit "language", VStr (lit "en")); (lit "label", VStr label);
                     (lit "score", VInt score); (lit "translated_text", VNone)]), tr)
    end.
Proof.
  intros Ha Hl. unfold Sentiment.analyze_sentiment.
  assert (Hlt : (List.length (strip text) <? 3)%nat = false) by (apply Nat.ltb_ge; lia).
  rewrite Hlt, (guess_language_ascii text Ha).
  change (negb (eqb (lit "en") (lit "en"))) with false. cbv beta iota zeta.
  destruct (E.(sentiment_en) (firstn 512 text)) as [[label score]|]; reflexivity.
Qed.

Lemma analyze_sentiment_ascii_witness :
  forallb (fun ch => (ch <? 128)%N) (lit "I love this") = true /\
  3 <= List.length (strip (lit "I love this")) /\
  Sentiment.analyze_sentiment Samples.world (lit "I love this") [] =
    (inr (VDict [(lit "language", VStr (lit "en")); (lit "label", VStr (lit "POSITIVE"));
                 (lit "score", VInt 1); (lit "translated_text", VNone)]), []).
Proof.
  split; [reflexivity|]. split; [vm_compute; lia|].
  rewrite (analyze_sentiment_ascii Samples.world (lit "I love this") [] eq_refl
             ltac:(vm_compute; lia)).
  reflexivity.
Defined.

(** On a text containing a character of the Arabic block U+0600..U+06FF
    (at least 3 characters once stripped), [sentiment.analyze_sentiment]
    reports ["fa"]; when the translation to English succeeds with [t], the
    model runs on the first 512 characters of [t] and [translated_text] is
    [t]. *)
Theorem analyze_sentiment_arabic_script (E : World) (text t : pystr) (tr : list event) :
  existsb (fun ch => (1536 <=? ch)%N && (ch <=? 1791)%N) text = true ->
  3 <= List.length (strip text) ->
  E.(translate) (lit "en") text = Some t ->
  Sentiment.analyze_sentiment E text tr =
    match E.(sentiment_en) (firstn 512 t) with
    | None => (inl (ExternalError (lit "sentiment model")), tr)
    | Some (label, score) =>
        (inr (VDict [(lit "language", VStr (lit "fa")); (lit "label", VStr label);
                     (lit "score", VInt score); (lit "translated_text", VStr t)]), tr)
    end.
Proof.
  intros Ha Hl Ht. unfold Sentiment.analyze_sentiment, Sentiment.guess_language.
  assert (Hlt : (List.length (strip text) <? 3)%nat = false) by (apply Nat.ltb_ge; lia).
  rewrite Hlt, Ha.
  change (negb (eqb (lit "fa") (lit "en"))) with true. cbv beta iota zeta. rewrite Ht.
  destruct (E.(sentiment_en) (firstn 512 t)) as [[label score]|]; reflexivity.
Qed.

Lemma analyze_sentiment_arabic_script_witness :
  let text := [1587%N; 1604%N; 1575%N; 1605%N] in
  let E := {| clean_text := strip; isalpha := AITools.is_ascii_letter;
              summarizer_en := None; ai_sentiment_en := None;
              sentiment_en := fun _ => Some (lit "POSITIVE", 1%Z);
              detect := fun _ => None; translate := fun _ _ => Some (lit "hello");
              get_joke := None; scrape_plain_text := fun _ => inl [];
              basic_scrape_url := fun _ => inl []; requests_page_text := fun _ => None;
              netloc := fun u => inr u; now_report := fun _ => [];
              now_log := fun _ => []; now_iso := fun _ => []; open_error := fun _ => None;
              uuid_hex := [] |} in
  existsb (fun ch => (1536 <=? ch)%N && (ch <=? 1791)%N) text = true /\
  3 <= List.length (strip text) /\
  E.(translate) (lit "en") text = Some (lit "hello") /\
  Sentiment.analyze_sentiment E text [] =
    (inr (VDict [(lit "language", VStr (lit "fa")); (lit "label", VStr (lit "POSITIVE"));
                 (lit "score", VInt 1); (lit "translated_text", VStr (lit "hello"))]), []).
Proof.
  cbv zeta. split; [reflexivity|]. split; [vm_compute; lia|]. split; [reflexivity|].
  rewrite analyze_sentiment_arabic_script with (t := lit "hello");
    [reflexivity|reflexivity|vm_compute; lia|reflexivity].
Defined.

(** [POST /sentiment_ai] answers 400 exactly for texts shorter than 3
    characters once stripped; for the others the [ValueError] handler is
    never reached: the answer is a 500 ("Sentiment analysis failed: ...")
    or the language guess with the model's label and score. *)
Theorem sentiment_ai_spec (E : World) (text : pystr) (tr : list event) :
  (List.length (strip text) < 3 ->
   Endpoints.sentiment_ai E text tr = (inl (HTTPException 400 (lit "Text is too short.")), tr)) /\
  (3 <= List.length (strip text) ->
   (exists m, Endpoints.sentiment_ai E text tr =
                (inl (HTTPException 500 (lit "Sentiment analysis failed: " ++ m)), tr)) \/
   (exists label score translated_text,
      Endpoints.sentiment_ai E text tr =
        (inr (VDict [(lit "language", VStr (Sentiment.guess_language text));
                     (lit "label", label); (lit "score", score);
                     (lit "translated_text", translated_text)]), tr))).
Proof.
  split; intros Hl.
  - unfold Endpoints.sentiment_ai.
    assert (Hlt : (List.length (strip text) <? 3)%nat = true) by (apply Nat.ltb_lt; lia).
    rewrite Hlt. reflexivity.
  - assert (Hlt : (List.length (strip text) <? 3)%nat = false) by (apply Nat.ltb_ge; lia).
    unfold Endpoints.sentiment_ai, Endpoints.try_catch, Sentiment.analyze_sentiment.
    rewrite Hlt.
    destruct (negb (eqb (Sentiment.guess_language text) (lit "en"))).
    + destruct (E.(translate) (lit "en") text) as [t|].
      * destruct (E.(sentiment_en) (firstn 512 t)) as [[label score]|].
        -- right. do 3 eexists. reflexivity.
        -- left. eexists. reflexivity.
      * destruct (E.(sentiment_en) (firstn 512 text)) as [[label score]|].
        -- right. do 3 eexists. reflexivity.
        -- left. eexists. reflexivity.
    + destruct (E.(sentiment_en) (firstn 512 text)) as [[label score]|].
      * right. do 3 eexists. reflexivity.
      * left. eexists. reflexivity.
Qed.

Lemma sentiment_ai_spec_witness :
  3 <= List.length (strip (lit "I love this")) /\
  ((exists m, Endpoints.sentiment_ai Samples.world (lit "I love this") [] =
                (inl (HTTPException 500 (lit "Sentiment analysis failed: " ++ m)), [])) \/
   (exists label score translated_text,
      Endpoints.sentiment_ai Samples.world (lit "I love this") [] =
        (inr (VDict [(lit "language", VStr (Sentiment.guess_language (lit "I love this")));
                     (lit "label", label); (lit "score", score);
                     (lit "translated_text", translated_text)]), []))).
Proof.
  split; [vm_compute; lia|].
  exact (proj2 (sentiment_ai_spec Samples.world (lit "I love this") []) ltac:(vm_compute; lia)).
Defined.

(** [ai_tools.analyze_sentiment] always returns a dict with exactly the
    keys [label], [score] and [note]; a non-empty text without any
    alphabetic character is ["UNKNOWN"] with score 0, whatever the model. *)
Theorem ai_analyze_sentiment_spec (E : World) (text : pystr) :
  (exists label score note,
     Sentiment.ai_analyze_sentiment E text =
       VDict [(lit "label", VStr label); (lit "score", VInt score); (lit "note", VStr note)]) /\
  (strip text <> [] -> filter E.(isalpha) (strip text) = [] ->
   Sentiment.ai_analyze_sentiment E text =
     VDict [(lit "label", VStr (lit "UNKNOWN")); (lit "score", VInt 0);
            (lit "note", VStr (lit "Sentiment model is English-only. For non-English text, sentiment is not analyzed."))]).
Proof.
  split.
  - unfold Sentiment.ai_analyze_sentiment.
    destruct (strip text) as [|c r]; [do 3 eexists; reflexivity|].
    destruct (E.(ai_sentiment_en)) as [model|]; [|do 3 eexists; reflexivity].
    destruct (AITools.is_mostly_english E (c :: r)); [|do 3 eexists; reflexivity].
    destruct (model (c :: r)) as [[label score]|]; do 3 eexists; reflexivity.
  - intros Hne Hf. unfold Sentiment.ai_analyze_sentiment.
    destruct (strip text) as [|c r]; [contradiction|].
    destruct (E.(ai_sentiment_en)) as [model|]; [|reflexivity].
    unfold AITools.is_mostly_english. rewrite Hf. reflexivity.
Qed.

Lemma ai_analyze_sentiment_spec_witness :
  strip (lit " 12345 ") <> [] /\
  filter Samples.world.(isalpha) (strip (lit " 12345 ")) = [] /\
  Sentiment.ai_analyze_sentiment Samples.world (lit " 12345 ") =
     VDict [(lit "label", VStr (lit "UNKNOWN")); (lit "score", VInt 0);
            (lit "note", VStr (lit "Sentiment model is English-only. For non-English text, sentiment is not analyzed."))].
Proof.
  split; [discriminate|]. split; [reflexivity|].
  exact (proj2 (ai_analyze_sentiment_spec Samples.world (lit " 12345 ")) ltac:(discriminate)
           eq_refl).
Defined.

Lemma filter_all_true {A} (f : A -> bool) (l : list A) :
  (forall x, In x l -> f x = true) -> filter f l = l.
Proof.
  induction l as [|x r IH]; intros H; simpl; [reflexivity|].
  rewrite (H x (or_introl eq_refl)), IH; [reflexivity|]. intros y Hy. apply H. right. exact Hy.
Qed.

Lemma filter_all_false {A} (f : A -> bool) (l : list A) :
  (forall x, In x l -> f x = false) -> filter f l = [].
Proof.
  induction l as [|x r IH]; intros H; simpl; [reflexivity|].
  rewrite (H x (or_introl eq_refl)). apply IH. intros y Hy. apply H. right. exact Hy.
Qed.

(** [is_mostly_english] is false for a text without letters and for one
    whose letters are all non-ASCII, and true for a text with letters
    that are all ASCII. *)
Theorem is_mostly_english_spec (E : World) (text : pystr) :
  (filter E.(isalpha) text = [] -> AITools.is_mostly_english E text = false) /\
  (filter E.(isalpha) text <> [] ->
   (forall c, In c text -> E.(isalpha) c = true -> AITools.is_ascii_letter c = true) ->
   AITools.is_mostly_english E text = true) /\
  (filter E.(isalpha) text <> [] ->
   (forall c, In c text -> E.(isalpha) c = true -> AITools.is_ascii_letter c = false) ->
   AITools.is_mostly_english E text = false).
Proof.
  unfold AITools.is_mostly_english.
  split; [intros H; rewrite H; reflexivity|]. split.
  - intros Hne Hall. destruct (filter E.(isalpha) text) as [|c r] eqn:Ef; [contradiction|].
    rewrite <- Ef, (filter_all_true AITools.is_ascii_letter).
    + apply Nat.leb_le. lia.
    + intros x Hx. apply filter_In in Hx as [Hx Ha]. apply Hall; assumption.
  - intros Hne Hnone. destruct (filter E.(isalpha) text) as [|c r] eqn:Ef; [contradiction|].
    rewrite <- Ef, (filter_all_false AITools.is_ascii_letter); [rewrite Ef; reflexivity|].
    intros x Hx. apply filter_In in Hx as [Hx Ha]. apply Hnone; assumption.
Qed.

Lemma is_mostly_english_spec_witness :
  filter Samples.world.(isalpha) (lit "Hello, world") <> [] /\
  AITools.is_mostly_english Samples.world (lit "Hello, world") = true.
Proof.
  split; [discriminate|].
  apply (proj1 (proj2 (is_mostly_english_spec Samples.world (lit "Hello, world"))));
    [discriminate|].
  intros c _ Hc. exact Hc.
Defined.

(** ** Text endpoints and reports *)




(** [GET /process] writes no log and no report; it does not guard the
    joke API, so it fails when [get_joke] raises. *)
Theorem process_spec (E : World) (text : pystr) (tr : list event) :
  snd (Endpoints.process E text tr) = tr /\
  (E.(get_joke) = None ->
   fst (Endpoints.process E text tr) = inl (ExternalError (lit "get_joke"))).
Proof.
  unfold Endpoints.process, Endpoints.get_joke_or_raise.
  destruct (TextStats.get_text_stats (E.(clean_text) text)) as [c w].
  split.
  - destruct (E.(get_joke)) as [[s p]|]; reflexivity.
  - intros H. rewrite H. reflexivity.
Qed.

Lemma process_spec_witness :
  Samples.world.(get_joke) = None /\
  fst (Endpoints.process Samples.world (lit "hello") []) = inl (ExternalError (lit "get_joke")).
Proof.
  split; [reflexivity|]. exact (proj2 (process_spec Samples.world (lit "hello") []) eq_refl).
Defined.

(** [POST /summarize] rejects texts shorter than 10 characters once
    stripped with 400 ["Text too short."]; otherwise it echoes the text
    unchanged as [original] with [summarize_text] of it, and a text of 10
    to 19 stripped characters is its own (stripped) summary. *)
Theorem summarize_spec (E : World) (text : pystr) (tr : list event) :
  (List.length (strip text) < 10 ->
   Endpoints.summarize E text tr = (inl (HTTPException 400 (lit "Text too short.")), tr)) /\
  (10 <= List.length (strip text) ->
   Endpoints.summarize E text tr =
     (inr (VDict [(lit "original", VStr text);
                  (lit "summary", VStr (AITools.summarize_text E text))]), tr)) /\
  (10 <= List.length (strip text) < 20 ->
   Endpoints.summarize E text tr =
     (inr (VDict [(lit "original", VStr text); (lit "summary", VStr (strip text))]), tr)).
Proof.
  unfold Endpoints.summarize. split; [|split].
  - intros Hl. assert (Hlt : (List.length (strip text) <? 10)%nat = true)
      by (apply Nat.ltb_lt; lia). rewrite Hlt. reflexivity.
  - intros Hl. assert (Hlt : (List.length (strip text) <? 10)%nat = false)
      by (apply Nat.ltb_ge; lia). rewrite Hlt. reflexivity.
  - intros Hl. assert (Hlt : (List.length (strip text) <? 10)%nat = false)
      by (apply Nat.ltb_ge; lia). rewrite Hlt.
    unfold AITools.summarize_text.
    assert (Hlt2 : (List.length (strip text) <? 20)%nat = true)
      by (apply Nat.ltb_lt; lia). rewrite Hlt2. reflexivity.
Qed.

Lemma summarize_spec_witness :
  10 <= List.length (strip (lit "  Short but fine. ")) < 20 /\
  Endpoints.summarize Samples.world (lit "  Short but fine. ") [] =
    (inr (VDict [(lit "original", VStr (lit "  Short but fine. "));
                 (lit "summary", VStr (lit "Short but fine."))]), []).
Proof.
  split; [vm_compute; lia|].
  rewrite (proj2 (proj2 (summarize_spec Samples.world (lit "  Short but fine. ") []))
             ltac:(vm_compute; lia)).
  reflexivity.
Defined.








(** ** Job analyzer pipeline *)

Lemma extract_text_from_url_eq (E : World) (url : pystr) (tr : list event) :
  let fast := match E.(scrape_plain_text) url with
              | inr text => (50 <? List.length (strip text))%nat
              | inl _ => false
              end in
  let fallback := match E.(requests_page_text) url with
                  | Some p => JobAnalyzer.clean_job_text p
                  | None => []
                  end in
  exists t,
    JobAnalyzer.extract_text_from_url E url tr =
      (inr t, tr ++ (if fast then [Scrape url] else [Scrape url; Scrape url])) /\
    JobAnalyzer.clean_job_text t = t /\
    t = (if fast
         then match E.(scrape_plain_text) url with
              | inr text => JobAnalyzer.clean_job_text text
              | inl _ => []
              end
         else fallback).
Proof.
  cbv zeta. unfold JobAnalyzer.extract_text_from_url.
  assert (Hfb : JobAnalyzer.clean_job_text
                  (match E.(requests_page_text) url with
                   | Some p => JobAnalyzer.clean_job_text p
                   | None => []
                   end) =
                match E.(requests_page_text) url with
                | Some p => JobAnalyzer.clean_job_text p
                | None => []
                end)
    by (destruct (E.(requests_page_text) url); [apply clean_job_text_idem|reflexivity]).
  destruct (E.(scrape_plain_text) url) as [e|text].
  - eexists. split; [cbv [bind emit ret]; rewrite <- app_assoc; reflexivity|].
    split; [exact Hfb|reflexivity].
  - destruct text as [|c m].
    + eexists. split; [cbv [bind emit ret negb andb]; rewrite <- app_assoc; reflexivity|].
      split; [exact Hfb|reflexivity].
    + change (negb false) with true. rewrite andb_true_l.
      destruct (50 <? List.length (strip (c :: m)))%nat.
      * eexists. split; [reflexivity|]. split; [apply clean_job_text_idem|reflexivity].
      * eexists. split; [cbv [bind emit ret]; rewrite <- app_assoc; reflexivity|].
        split; [exact Hfb|reflexivity].
Qed.

(** [extract_text_from_url] never raises. It tries Playwright once and
    stops there, returning [clean_job_text] of that text, exactly when the
    text has more than 50 characters once stripped; otherwise it makes one
    [requests] attempt as well and returns [clean_job_text] of that page,
    or [""] when that attempt fails too. The text it returns is always in
    [clean_job_text] normal form. *)
Theorem extract_text_from_url_spec (E : World) (url : pystr) (tr : list event) :
  let fast := match E.(scrape_plain_text) url with
              | inr text => (50 <? List.length (strip text))%nat
              | inl _ => false
              end in
  let fallback := match E.(requests_page_text) url with
                  | Some p => JobAnalyzer.clean_job_text p
                  | None => []
                  end in
  exists t,
    JobAnalyzer.extract_text_from_url E url tr =
      (inr t, tr ++ (if fast then [Scrape url] else [Scrape url; Scrape url])) /\
    t = (if fast
         then match E.(scrape_plain_text) url with
              | inr text => JobAnalyzer.clean_job_text text
              | inl _ => []
              end
         else fallback) /\
    (fast = false -> E.(requests_page_text) url = None -> t = []) /\
    t = join [space] (split t).
Proof.
  cbv zeta. destruct (extract_text_from_url_eq E url tr) as [t [H1 [H2 H3]]].
  exists t. split; [exact H1|]. split; [exact H3|]. split.
  - intros Hf Hr. rewrite H3, Hf, Hr. reflexivity.
  - rewrite <- (clean_job_text_eq t). symmetry. exact H2.
Qed.

Lemma extract_text_from_url_spec_witness :
  Samples.world_empty_translation.(scrape_plain_text) (lit "https://jobs.example/1") =
    inl (lit "timeout") /\
  Samples.world_empty_translation.(requests_page_text) (lit "https://jobs.example/1") = None /\
  JobAnalyzer.extract_text_from_url Samples.world_empty_translation
    (lit "https://jobs.example/1") [] =
    (inr [], [Scrape (lit "https://jobs.example/1"); Scrape (lit "https://jobs.example/1")]).
Proof.
  split; [reflexivity|]. split; [reflexivity|].
  destruct (extract_text_from_url_spec Samples.world_empty_translation
              (lit "https://jobs.example/1") []) as [t [H1 [_ [H3 _]]]].
  rewrite H1, (H3 eq_refl eq_refl). reflexivity.
Defined.

(** [analyze_job_url] never raises and has exactly the scraping effects
    of [extract_text_from_url]; with [raw] the text [extract_text_from_url]
    returns, it gives the error dict exactly when [raw] has fewer than 50
    characters, even if Playwright's raw text was long enough to skip the
    fallback. *)
Theorem analyze_job_url_spec (E : World) (url : pystr) (tr : list event) :
  let fast := match E.(scrape_plain_text) url with
              | inr text => (50 <? List.length (strip text))%nat
              | inl _ => false
              end in
  exists raw,
    fst (JobAnalyzer.extract_text_from_url E url tr) = inr raw /\
    raw = join [space] (split raw) /\
    JobAnalyzer.analyze_job_url E url tr =
      (inr (if (List.length raw <? 50)%nat
            then VDict [(lit "error", VStr (lit "Could not extract enough text from URL."))]
            else VDict ([(lit "url", VStr url);
                         (lit "characters", VInt (Z.of_nat (List.length raw)));
                         (lit "words", VInt (Z.of_nat (List.length (split raw))))]
                        ++ JobAnalyzer.ai_analyze_job E raw)),
       tr ++ (if fast then [Scrape url] else [Scrape url; Scrape url])).
Proof.
  cbv zeta. destruct (extract_text_from_url_eq E url tr) as [t [H1 [H2 _]]].
  exists t. split; [rewrite H1; reflexivity|].
  split; [rewrite <- (clean_job_text_eq t); symmetry; exact H2|].
  unfold JobAnalyzer.analyze_job_url. cbv [bind]. rewrite H1.
  destruct (List.length t <? 50)%nat; reflexivity.
Qed.

(** ** Job radar: URL file and CSV output *)

Lemma lstrip_idem (s : pystr) : lstrip (lstrip s) = lstrip s.
Proof.
  induction s as [|c r IH]; simpl; [reflexivity|].
  destruct (isspace c) eqn:Hc; [exact IH|]. simpl. rewrite Hc. reflexivity.
Qed.

Lemma rstrip_idem (s : pystr) : rstrip (rstrip s) = rstrip s.
Proof. unfold rstrip. rewrite rev_involutive, lstrip_idem. reflexivity. Qed.

Lemma strip_idem (s : pystr) : strip (strip s) = strip s.
Proof.
  unfold strip. destruct (lstrip s) as [|c m] eqn:E; [reflexivity|].
  assert (Hc : isspace c = false) by exact (lstrip_head s c m E).
  assert (Hr : exists l, rstrip (c :: m) = c :: l).
  { change (c :: m) with ([c] ++ m). rewrite rstrip_app.
    destruct (rstrip m) as [|d l]; [|eexists; reflexivity].
    exists []. apply rstrip_nows. constructor; [exact Hc|constructor]. }
  destruct Hr as [l Hl]. rewrite Hl. simpl. rewrite Hc, <- Hl. apply rstrip_idem.
Qed.

Lemma strip_snoc_space (w : pystr) (c : N) : isspace c = true -> strip (w ++ [c]) = strip w.
Proof.
  intros Hc. unfold strip. rewrite lstrip_app.
  assert (Hl : lstrip [c] = []) by (simpl; rewrite Hc; reflexivity).
  destruct (lstrip w) as [|d m]; [rewrite Hl; reflexivity|].
  rewrite rstrip_app. assert (Hr : rstrip [c] = []) by (unfold rstrip; simpl; rewrite Hc; reflexivity).
  rewrite Hr. reflexivity.
Qed.

Lemma universal_newlines_no_cr (s : pystr) : forall b, ~ In 13%N (JobRadar.universal_newlines s b).
Proof.
  induction s as [|c r IH]; intros b; simpl; [tauto|].
  destruct (b && (c =? 10)%N); [apply IH|].
  destruct (c =? 13)%N eqn:E13; simpl; intros [H|H].
  - discriminate H.
  - exact (IH true H).
  - subst c. discriminate E13.
  - exact (IH false H).
Qed.

Lemma lines_aux_in (s : pystr) : forall cur l c,
  In l (JobRadar.lines_aux s cur) -> In c l -> In c s \/ In c cur.
Proof.
  induction s as [|d r IH]; intros cur l c Hl Hc; simpl in Hl.
  - destruct cur as [|e m]; [contradiction|]. destruct Hl as [<-|[]].
    right. apply in_rev. exact Hc.
  - destruct (d =? 10)%N.
    + destruct Hl as [<-|Hl].
      * apply in_app_iff in Hc. destruct Hc as [Hc|[<-|[]]].
        -- right. apply in_rev. exact Hc.
        -- left. left. reflexivity.
      * destruct (IH [] l c Hl Hc) as [H|[]]. left. right. exact H.
    + destruct (IH (d :: cur) l c Hl Hc) as [H|[<-|H]].
      * left. right. exact H.
      * left. left. reflexivity.
      * right. exact H.
Qed.

Lemma lines_aux_shape (s : pystr) : forall cur, ~ In 10%N cur ->
  Forall (fun l => ~ In 10%N l \/ exists w, l = w ++ [10%N] /\ ~ In 10%N w)
         (JobRadar.lines_aux s cur).
Proof.
  induction s as [|d r IH]; intros cur Hcur; simpl.
  - destruct cur as [|e m]; [constructor|]. constructor; [|constructor].
    left. rewrite <- in_rev. exact Hcur.
  - destruct (d =? 10)%N eqn:Ed.
    + constructor; [|apply IH; simpl; tauto].
      right. exists (rev cur). apply N.eqb_eq in Ed. subst d. split; [reflexivity|].
      rewrite <- in_rev. exact Hcur.
    + apply IH. simpl. intros [H|H]; [subst d; discriminate Ed|contradiction].
Qed.

Lemma fold_urls (ls : list pystr) : forall acc,
  fold_left (fun urls line =>
               let url := strip line in
               match url with [] => urls | _ => urls ++ [url] end) ls acc =
    acc ++ filter nonempty (map strip ls).
Proof.
  induction ls as [|l r IH]; intros acc; simpl; [rewrite app_nil_r; reflexivity|].
  rewrite IH. destruct (strip l); simpl; [reflexivity|]. rewrite <- app_assoc. reflexivity.
Qed.

(** [load_job_urls] warns and returns no URL when the path does not
    exist; when the file cannot be opened or read as UTF-8 text (a
    directory, undecodable bytes, ...) the error propagates with nothing
    printed; otherwise it prints nothing and returns the stripped
    non-blank lines of the file in order (["\n"], ["\r\n"] and ["\r"] all
    end a line): every URL is non-empty, already stripped, and holds no
    line break. *)
Theorem load_job_urls_spec (path content err : pystr) :
  JobRadar.load_job_urls path JobRadar.Absent =
    ([JobRadar.PrintLn (lit "[WARN] '" ++ path ++
        lit "' not found. Please create it and add job URLs (one per line).")], inr []) /\
  JobRadar.load_job_urls path (JobRadar.Unreadable err) = ([], inl (ExternalError err)) /\
  exists urls,
    JobRadar.load_job_urls path (JobRadar.TextFile content) = ([], inr urls) /\
    urls = filter nonempty (map strip (JobRadar.file_lines content)) /\
    Forall (fun u => u <> [] /\ strip u = u /\ ~ In 10%N u /\ ~ In 13%N u) urls.
Proof.
  split; [reflexivity|]. split; [reflexivity|].
  eexists. split; [reflexivity|].
  rewrite fold_urls, app_nil_l. split; [reflexivity|].
  apply Forall_forall. intros u Hu.
  apply filter_In in Hu. destruct Hu as [Hu Hne]. apply in_map_iff in Hu.
  destruct Hu as [l [<- Hl]].
  split; [destruct (strip l); [discriminate Hne|discriminate]|].
  split; [apply strip_idem|].
  unfold JobRadar.file_lines in Hl. split.
  - pose proof (proj1 (Forall_forall _ _) (lines_aux_shape _ [] (fun H => H)) l Hl) as Hsh.
    destruct Hsh as [Hn|[w [-> Hw]]].
    + intros H. apply Hn. apply (strip_in _ _ H).
    + rewrite strip_snoc_space by reflexivity. intros H. apply Hw. apply (strip_in _ _ H).
  - intros H. apply strip_in in H.
    destruct (lines_aux_in _ [] l 13%N Hl H) as [H'|[]].
    exact (universal_newlines_no_cr content false H').
Qed.





Lemma all_strs_map (ss : list pystr) : JobRadar.all_strs (map VStr ss) = Some ss.
Proof. induction ss as [|x r IH]; simpl; [reflexivity|]. rewrite IH. reflexivity. Qed.

(** The CSV row of one result: a result that is not a dict has none
    ([item.get] raises); a dict with none of the column keys gets a row
    with an empty URL, zero counts and empty cells; and any dict whose [skills],
    [languages] and [tech_stack] are absent or lists of strings gets a row
    with exactly the eight columns, in order. *)
Theorem row_of_spec :
  (forall v, (forall kv, v <> VDict kv) -> JobRadar.row_of v = None) /\
  (forall kv, (forall k, In k JobRadar.fieldnames -> lookup k kv = None) ->
   JobRadar.row_of (VDict kv) = Some default_row) /\
  (forall kv, (forall k, In k [lit "skills"; lit "languages"; lit "tech_stack"] ->
               match lookup k kv with
               | None => True
               | Some v => exists ss, v = VList (map VStr ss)
               end) ->
   exists row, JobRadar.row_of (VDict kv) = Some row /\ map fst row = JobRadar.fieldnames).
Proof.
  split; [|split].
  - intros v Hv. destruct v as [s|z| |l|kv]; try reflexivity. exfalso. exact (Hv kv eq_refl).
  - intros kv H. unfold JobRadar.row_of, JobRadar.get.
    rewrite !H by (unfold JobRadar.fieldnames; simpl; tauto). reflexivity.
  - intros kv H.
    assert (Hj : forall k, In k [lit "skills"; lit "languages"; lit "tech_stack"] ->
      exists s, JobRadar.join_comma
                  (match lookup k kv with Some v => v | None => VList [] end) = Some s).
    { intros k Hk. specialize (H k Hk). destruct (lookup k kv) as [v|].
      - destruct H as [ss ->]. exists (VStr (join (lit ", ") ss)).
        unfold JobRadar.join_comma. rewrite all_strs_map. reflexivity.
      - exists (VStr []). reflexivity. }
    destruct (Hj (lit "skills") ltac:(simpl; tauto)) as [s1 E1].
    destruct (Hj (lit "languages") ltac:(simpl; tauto)) as [s2 E2].
    destruct (Hj (lit "tech_stack") ltac:(simpl; tauto)) as [s3 E3].
    unfold JobRadar.row_of, JobRadar.get. cbv beta iota. rewrite E1, E2, E3.
    eexists. split; reflexivity.
Qed.

Lemma row_of_spec_witness :
  (forall k, In k JobRadar.fieldnames ->
     lookup k [(lit "error", VStr (lit "Could not extract enough text from URL."))] = None) /\
  JobRadar.row_of (VDict [(lit "error", VStr (lit "Could not extract enough text from URL."))]) =
    Some default_row.
Proof.
  assert (H : forall k, In k JobRadar.fieldnames ->
     lookup k [(lit "error", VStr (lit "Could not extract enough text from URL."))] = None).
  { intros k Hk. vm_compute in Hk.
    repeat (destruct Hk as [<-|Hk]; [reflexivity|]). destruct Hk. }
  split; [exact H|]. exact (proj1 (proj2 row_of_spec) _ H).
Defined.

(** ** Keywords: what a keyword looks like *)

Lemma sort_desc_perm (l : list (pystr * nat)) : Permutation (Keywords.sort_desc l) l.
Proof.
  induction l as [|x r IH]; simpl; [reflexivity|].
  rewrite insert_desc_perm. apply perm_skip. exact IH.
Qed.

Lemma in_firstn_l {A} (n : nat) (l : list A) (x : A) : In x (firstn n l) -> In x l.
Proof.
  revert l. induction n as [|n IH]; intros [|y r]; simpl; try tauto.
  intros [H|H]; [left; exact H|right; exact (IH r H)].
Qed.

Lemma keywords_in_tokens (text : pystr) (top_n : Z) (w : pystr) :
  In w (Keywords.extract_keywords_simple text top_n) -> In w (KeywordsSpec.tokens text).
Proof.
  unfold Keywords.extract_keywords_simple, Keywords.most_common.
  rewrite findall_alpha3_runs.
  change (filter (fun t => negb (existsb (eqb t) Keywords.stopwords))
            (KeywordsSpec.alpha_runs (lower text))) with (KeywordsSpec.tokens text).
  destruct (Counter_spec (KeywordsSpec.tokens text)) as [K [[_ [Hin _]] HC]]. rewrite HC.
  intros Hw. apply in_map_iff in Hw. destruct Hw as [[k n] [Hk Hkn]]. simpl in Hk. subst k.
  assert (H : In (w, n) (Keywords.sort_desc
                 (map (fun k => (k, KeywordsSpec.count_of k (KeywordsSpec.tokens text))) K)))
    by exact (in_firstn_l _ _ _ Hkn).
  apply (Permutation_in _ (sort_desc_perm _)) in H.
  apply in_map_iff in H. destruct H as [k [Hk HkK]]. injection Hk as -> _.
  apply Hin. exact HkK.
Qed.

Lemma runs_aux_shape (P : N -> Prop) (s : pystr) : forall cur,
  Forall P s -> Forall (fun c => AITools.is_ascii_letter c = true /\ P c) cur ->
  Forall (fun w => 3 <= List.length w /\
                   Forall (fun c => AITools.is_ascii_letter c = true /\ P c) w)
         (KeywordsSpec.runs_aux s cur).
Proof.
  assert (He : forall cur, Forall (fun c => AITools.is_ascii_letter c = true /\ P c) cur ->
    Forall (fun w => 3 <= List.length w /\
                     Forall (fun c => AITools.is_ascii_letter c = true /\ P c) w)
           (KeywordsSpec.emit_run cur)).
  { intros cur Hc. unfold KeywordsSpec.emit_run.
    destruct (Nat.leb_spec 3 (List.length cur)); constructor; [|constructor].
    split; [rewrite length_rev; exact H|apply Forall_rev; exact Hc]. }
  induction s as [|c r IH]; intros cur Hs Hc; simpl; [apply He; exact Hc|].
  inversion Hs as [|? ? Hpc Hr]; subst.
  destruct (AITools.is_ascii_letter c) eqn:Hl.
  - apply IH; [exact Hr|]. constructor; [split; assumption|exact Hc].
  - apply Forall_app. split; [apply He; exact Hc|]. apply IH; [exact Hr|constructor].
Qed.

Lemma lower_no_upper (s : pystr) : Forall (fun c => (c < 65 \/ 90 < c)%N) (lower s).
Proof.
  unfold lower. apply Forall_forall. intros c Hc. apply in_flat_map in Hc.
  destruct Hc as [d [_ Hd]]. unfold lower_char in Hd.
  destruct ((65 <=? d) && (d <=? 90))%N eqn:E1.
  - destruct Hd as [<-|[]]. apply andb_true_iff in E1. destruct E1 as [E1 _].
    apply N.leb_le in E1. right. lia.
  - destruct ((192 <=? d) && (d <=? 222) && negb (d =? 215))%N eqn:E2.
    + destruct Hd as [<-|[]]. apply andb_true_iff in E2. destruct E2 as [E2 _].
      apply andb_true_iff in E2. destruct E2 as [E2 _]. apply N.leb_le in E2. right. lia.
    + destruct (d =? 304)%N.
      * destruct Hd as [<-|[<-|[]]]; right; lia.
      * destruct (d =? 8490)%N.
        -- destruct Hd as [<-|[]]. right. lia.
        -- destruct Hd as [<-|[]]. apply andb_false_iff in E1.
           destruct E1 as [E1|E1]; [apply N.leb_gt in E1; left; lia|apply N.leb_gt in E1; right; lia].
Qed.

Lemma keywords_shape (text : pystr) (top_n : Z) :
  List.length (Keywords.extract_keywords_simple text top_n) <= Z.to_nat top_n /\
  Forall (fun w => 3 <= List.length w /\ Forall (fun c => (97 <= c <= 122)%N) w /\
                   ~ In w Keywords.stopwords)
         (Keywords.extract_keywords_simple text top_n).
Proof.
  split.
  - unfold Keywords.extract_keywords_simple, Keywords.most_common.
    rewrite length_map. apply firstn_le_length.
  - apply Forall_forall. intros w Hw. apply keywords_in_tokens in Hw.
    unfold KeywordsSpec.tokens in Hw. apply filter_In in Hw. destruct Hw as [Hw Hs].
    pose proof (proj1 (Forall_forall _ _)
                  (runs_aux_shape (fun c => (c < 65 \/ 90 < c)%N) (lower text) []
                     (lower_no_upper text) (Forall_nil _)) w Hw) as [Hlen Hc].
    split; [exact Hlen|]. split.
    + apply Forall_forall. intros c Hin. pose proof (proj1 (Forall_forall _ _) Hc c Hin) as [Hl Hp].
      unfold AITools.is_ascii_letter in Hl.
      apply orb_true_iff in Hl. destruct Hl as [Hl|Hl]; apply andb_true_iff in Hl;
        destruct Hl as [H1 H2]; apply N.leb_le in H1, H2; lia.
    + intros Hin.
      assert (He : existsb (eqb w) Keywords.stopwords = true)
        by (apply existsb_exists; exists w; split; [exact Hin|apply eqb_refl]).
      rewrite He in Hs. discriminate Hs.
Qed.

(** [extract_keywords_simple text top_n] returns at most [top_n] keywords
    (none for [top_n <= 0]); each is a word of at least 3 lowercase ASCII
    letters [a-z] that is not a stopword. *)
Theorem extract_keywords_shape (text : pystr) (top_n : Z) :
  List.length (Keywords.extract_keywords_simple text top_n) <= Z.to_nat top_n /\
  Forall (fun w => 3 <= List.length w /\ Forall (fun c => (97 <= c <= 122)%N) w /\
                   ~ In w Keywords.stopwords)
         (Keywords.extract_keywords_simple text top_n).
Proof. exact (keywords_shape text top_n). Qed.

(** ** URL endpoints without a file *)

(** [POST /analyze_job], for an [http(s)] URL, has the scraping effects of
    [extract_text_from_url] on the stripped URL; with [raw] the text
    [extract_text_from_url] returns for it, it fails with 400 ["Could not
    extract enough text from URL."] exactly when [raw] has fewer than 50
    characters; it never fails with 500, and otherwise returns the result
    of [analyze_job_url]. *)
Theorem analyze_job_endpoint_spec (E : World) (url : pystr) (tr : list event) :
  Api.bad_url (strip url) = false ->
  let u := strip url in
  let fast := match E.(scrape_plain_text) u with
              | inr text => (50 <? List.length (strip text))%nat
              | inl _ => false
              end in
  exists raw,
    fst (JobAnalyzer.extract_text_from_url E u tr) = inr raw /\
    raw = join [space] (split raw) /\
    Api.analyze_job E url tr =
      ((if (List.length raw <? 50)%nat
        then inl (HTTPException 400 (lit "Could not extract enough text from URL."))
        else inr (VDict ([(lit "url", VStr u);
                          (lit "characters", VInt (Z.of_nat (List.length raw)));
                          (lit "words", VInt (Z.of_nat (List.length (split raw))))]
                         ++ JobAnalyzer.ai_analyze_job E raw))),
       tr ++ (if fast then [Scrape u] else [Scrape u; Scrape u])).
Proof.
  intros Hb. cbv zeta.
  destruct (extract_text_from_url_eq E (strip url) tr) as [t [H1 [H2 _]]].
  exists t. split; [rewrite H1; reflexivity|].
  split; [rewrite <- (clean_job_text_eq t); symmetry; exact H2|].
  unfold Api.analyze_job. rewrite Hb. unfold JobAnalyzer.analyze_job_url. cbv [bind].
  rewrite H1. destruct (List.length t <? 50)%nat; reflexivity.
Qed.

Lemma analyze_job_endpoint_spec_witness :
  Api.bad_url (strip (lit " https://jobs.example/42 ")) = false /\
  exists raw,
    fst (JobAnalyzer.extract_text_from_url Samples.world
           (strip (lit " https://jobs.example/42 ")) []) = inr raw /\
    raw = join [space] (split raw) /\
    Api.analyze_job Samples.world (lit " https://jobs.example/42 ") [] =
      ((if (List.length raw <? 50)%nat
        then inl (HTTPException 400 (lit "Could not extract enough text from URL."))
        else inr (VDict ([(lit "url", VStr (strip (lit " https://jobs.example/42 ")));
                          (lit "characters", VInt (Z.of_nat (List.length raw)));
                          (lit "words", VInt (Z.of_nat (List.length (split raw))))]
                         ++ JobAnalyzer.ai_analyze_job Samples.world raw))),
       [] ++ [Scrape (strip (lit " https://jobs.example/42 "));
              Scrape (strip (lit " https://jobs.example/42 "))]).
Proof.
  split; [reflexivity|].
  exact (analyze_job_endpoint_spec Samples.world (lit " https://jobs.example/42 ") [] eq_refl).
Defined.

(** [POST /scrape_url] validates nothing: any URL, with or without an
    [http(s)] scheme, is stripped and scraped once; a scraper error is
    passed on as is, and on success [preview] is the first 500 characters
    of [full_text] and [text_length] its length. *)
Theorem scrape_url_endpoint_spec (E : World) (url : pystr) (tr : list event) :
  snd (Api.scrape_url_endpoint E url tr) = tr ++ [Scrape (strip url)] /\
  (forall e, E.(scrape_plain_text) (strip url) = inl e ->
   fst (Api.scrape_url_endpoint E url tr) = inl (ExternalError e)) /\
  (forall text, E.(scrape_plain_text) (strip url) = inr text ->
   exists preview,
     fst (Api.scrape_url_endpoint E url tr) =
       inr (VDict [(lit "url", VStr (strip url));
                   (lit "text_length", Api.VNat (List.length text));
                   (lit "preview", VStr preview); (lit "full_text", VStr text)]) /\
     preview ++ skipn 500 text = text /\ List.length preview = Nat.min 500 (List.length text)).
Proof.
  unfold Api.scrape_url_endpoint. cbv zeta. split; [|split].
  - destruct (E.(scrape_plain_text) (strip url)); reflexivity.
  - intros e He. cbv [bind emit]. rewrite He. reflexivity.
  - intros text Ht. exists (slice_to text 500). cbv [bind emit]. rewrite Ht.
    split; [reflexivity|]. unfold slice_to. split; [apply firstn_skipn|apply length_firstn].
Qed.

Lemma scrape_url_endpoint_spec_witness :
  Samples.world.(scrape_plain_text) (strip (lit "ftp://example.com")) =
    inr (lit "fifteen chars!!") /\
  exists preview,
    fst (Api.scrape_url_endpoint Samples.world (lit "ftp://example.com") []) =
      inr (VDict [(lit "url", VStr (strip (lit "ftp://example.com")));
                  (lit "text_length", Api.VNat (List.length (lit "fifteen chars!!")));
                  (lit "preview", VStr preview); (lit "full_text", VStr (lit "fifteen chars!!"))]) /\
    preview ++ skipn 500 (lit "fifteen chars!!") = lit "fifteen chars!!" /\
    List.length preview = Nat.min 500 (List.length (lit "fifteen chars!!")).
Proof.
  split; [reflexivity|].
  exact (proj2 (proj2 (scrape_url_endpoint_spec Samples.world (lit "ftp://example.com") []))
           (lit "fifteen chars!!") eq_refl).
Defined.

(** [POST /analyze_url_ai] on an [http(s)] URL fails, before any scrape,
    with the [ValueError] of [urlparse] when that rejects the stripped
    URL. When [urlparse] accepts it with domain [d] and the page has at
    least 50 characters once stripped, the endpoint scrapes once and
    writes nothing; it returns [d], the summary of the cleaned text, a
    translation of that summary only when [translate_to] is not blank (the
    target is stripped first), and at most 10 keywords, each of at least 3
    lowercase ASCII letters and not a stopword. *)
Theorem analyze_url_ai_success (E : World) (url : pystr) (translate_to : option pystr)
    (raw : pystr) (tr : list event) :
  Api.bad_url (strip url) = false ->
  let u := strip url in
  let summary := AITools.summarize_text E (E.(clean_text) raw) in
  (forall e, E.(netloc) u = inl e ->
   Api.analyze_url_ai E url translate_to tr = (inl (ExternalError e), tr)) /\
  (forall d, E.(netloc) u = inr d ->
   E.(scrape_plain_text) u = inr raw ->
   50 <= List.length (strip raw) ->
   exists kv ks,
     Api.analyze_url_ai E url translate_to tr = (inr (VDict kv), tr ++ [Scrape u]) /\
     lookup (lit "domain") kv = Some (VStr d) /\
     lookup (lit "summary") kv = Some (VStr summary) /\
     lookup (lit "summary_translated") kv =
       Some (match translate_to with
             | Some tl => match strip tl with
                          | [] => VNone
                          | t => VStr (AITools.translated (AITools.translate_text E summary t))
                          end
             | None => VNone
             end) /\
     lookup (lit "keywords") kv = Some (JobAnalyzer.VStrs ks) /\
     List.length ks <= 10 /\
     Forall (fun w => 3 <= List.length w /\ Forall (fun c => (97 <= c <= 122)%N) w /\
                      ~ In w Keywords.stopwords) ks).
Proof.
  intros Hb. cbv zeta. unfold Api.analyze_url_ai. rewrite Hb. split.
  - intros e He. rewrite He. reflexivity.
  - intros d Hd Hs Hl. rewrite Hd.
    cbv [bind emit]. rewrite Hs.
    assert (Hlt : (List.length (strip raw) <? 50)%nat = false) by (apply Nat.ltb_ge; lia).
    rewrite Hlt.
    destruct (TextStats.get_text_stats (E.(clean_text) raw)) as [c w].
    destruct (keywords_shape (E.(clean_text) raw) 10) as [Hk1 Hk2].
    eexists. exists (Keywords.extract_keywords_simple (E.(clean_text) raw) 10).
    split; [reflexivity|]. split; [reflexivity|]. split; [reflexivity|].
    split; [unfold Api.wanted_target; destruct translate_to as [tl|];
            [destruct (strip tl); reflexivity|reflexivity]|].
    split; [reflexivity|]. split; [exact Hk1|exact Hk2].
Qed.

Lemma analyze_url_ai_success_witness :
  let E := {| clean_text := strip; isalpha := AITools.is_ascii_letter;
              summarizer_en := None; ai_sentiment_en := None;
              sentiment_en := fun _ => None; detect := fun _ => None;
              translate := fun _ _ => None; get_joke := None;
              scrape_plain_text := fun _ =>
                inr (lit "Rocq proofs check code; proofs about code are checked by Rocq.");
              basic_scrape_url := fun _ => inl (lit "unreachable");
              requests_page_text := fun _ => None;
              netloc := fun u =>
                if startswith u (lit "https://[") then inl (lit "Invalid IPv6 URL")
                else inr (lit "example.com");
              now_report := fun _ => lit "20260101_000000";
              now_log := fun _ => lit "2026-01-01 00:00:00";
              now_iso := fun _ => lit "2026-01-01T00:00:00";
              open_error := fun _ => None; uuid_hex := lit "0123abcd" |} in
  Api.bad_url (strip (lit "https://[abc")) = false /\
  E.(netloc) (strip (lit "https://[abc")) = inl (lit "Invalid IPv6 URL") /\
  Api.analyze_url_ai E (lit "https://[abc") None [] =
    (inl (ExternalError (lit "Invalid IPv6 URL")), []) /\
  Api.bad_url (strip (lit "https://example.com/a")) = false /\
  E.(netloc) (strip (lit "https://example.com/a")) = inr (lit "example.com") /\
  E.(scrape_plain_text) (strip (lit "https://example.com/a")) =
    inr (lit "Rocq proofs check code; proofs about code are checked by Rocq.") /\
  50 <= List.length (strip (lit "Rocq proofs check code; proofs about code are checked by Rocq.")) /\
  exists kv ks,
    Api.analyze_url_ai E (lit "https://example.com/a") (Some (lit " ")) [] =
      (inr (VDict kv), [] ++ [Scrape (strip (lit "https://example.com/a"))]) /\
    lookup (lit "domain") kv = Some (VStr (lit "example.com")) /\
    lookup (lit "summary") kv =
      Some (VStr (AITools.summarize_text E (E.(clean_text)
                    (lit "Rocq proofs check code; proofs about code are checked by Rocq.")))) /\
    lookup (lit "summary_translated") kv = Some VNone /\
    lookup (lit "keywords") kv = Some (JobAnalyzer.VStrs ks) /\
    List.length ks <= 10 /\
    Forall (fun w => 3 <= List.length w /\ Forall (fun c => (97 <= c <= 122)%N) w /\
                     ~ In w Keywords.stopwords) ks.
Proof.
  intros E. split; [reflexivity|]. split; [reflexivity|]. split.
  - exact (proj1 (analyze_url_ai_success E (lit "https://[abc") None [] [] eq_refl) _ eq_refl).
  - split; [reflexivity|]. split; [reflexivity|]. split; [reflexivity|].
    split; [vm_compute; lia|].
    exact (proj2 (analyze_url_ai_success E (lit "https://example.com/a") (Some (lit " "))
                    (lit "Rocq proofs check code; proofs about code are checked by Rocq.") []
                    eq_refl) _ eq_refl eq_refl ltac:(vm_compute; lia)).
Defined.
